(** * SimulatorCore: Zone and SimRobot (engine/objects)

    A shallow embedding of [src/engine/objects/Zone.ts] and
    [src/engine/objects/robot/SimRobot.ts].

    JavaScript numbers are idealised as real numbers: [x / 2] is exact
    halving and [Math.PI] is the real [PI].  Objects of the rendering
    library (three.js) and of the physics library (planck-js) are
    represented by the arguments their constructors receive and by the
    fields the two source files read or write.  An object that the source
    shares by reference (a physics body, a wheel) lives in a store and is
    named by its index there. *)

From Stdlib Require Import Reals Lra String List.
From stdpp Require Import base option list.
Import ListNotations.
Open Scope R_scope.

Abbreviation number := R.

(** ** Exceptions and effects *)

(** The only exception the two files can raise themselves is the
    [TypeError] of a property access on [undefined]; the argument names
    the expression that was [undefined]. *)
Inductive Exn := TypeError (receiver : string).

Inductive result (A : Type) :=
| Ok (a : A)
| Throw (e : Exn).
Arguments Ok {A} a.
Arguments Throw {A} e.

(** A computation over a mutable store [S]: the store survives a throw,
    as the heap of a JavaScript program does. *)
Definition M (S A : Type) : Type := S -> S * result A.

Definition ret {S A} (a : A) : M S A := fun s => (s, Ok a).

Definition throw {S A} (e : Exn) : M S A := fun s => (s, Throw e).

Definition bind {S A B} (m : M S A) (k : A -> M S B) : M S B :=
  fun s =>
    match m s with
    | (s', Ok a) => k a s'
    | (s', Throw e) => (s', Throw e)
    end.

Notation "x <- m ;; k" := (bind m (fun x => k))
  (at level 100, m at next level, right associativity).
Notation "m ;;; k" := (bind m (fun _ => k))
  (at level 100, right associativity).

Definition get {S} : M S S := fun s => (s, Ok s).
Definition modify {S} (f : S -> S) : M S unit := fun s => (f s, Ok tt).

(** [xs.forEach(f)] *)
Fixpoint forEach {S A} (xs : list A) (f : A -> M S unit) : M S unit :=
  match xs with
  | [] => ret tt
  | x :: xs' => f x ;;; forEach xs' f
  end.

(** [o.p] where [o] may be [undefined] *)
Definition deref {S A} (receiver : string) (o : option A) : M S A :=
  match o with
  | Some a => ret a
  | None => throw (TypeError receiver)
  end.

(** ** Values of the repository's declaration files *)

(** Modelled from the spec: [Vector2d] of [engine/SimTypes], a pair of
    numbers [x], [y]. *)
Module Vector2d.
Record t := mk { x : number; y : number }.
End Vector2d.

(** Modelled from the spec: [IZoneFixtureUserData] of
    [engine/specs/UserDataSpecs]: the owning object's id, the tag ["zone"]
    and the zone's identifier and colour. *)
Module ZoneUserData.
Record zoneInfo := mkZone { id : string; color : option number }.
Record t := mk { selfGuid : string; type : string; zone : zoneInfo }.
End ZoneUserData.

(** ** three.js values *)

Module THREE.

Module Vector2.
Record t := mk { x : number; y : number }.
End Vector2.

Module Vector3.
Record t := mk { x : number; y : number; z : number }.
Definition zero : t := mk 0 0 0.
Definition add (a b : t) : t := mk (x a + x b) (y a + y b) (z a + z b).
Definition multiplyScalar (a : t) (k : number) : t :=
  mk (x a * k) (y a * k) (z a * k).
Definition set_x (v : number) (a : t) : t := mk v (y a) (z a).
Definition set_y (v : number) (a : t) : t := mk (x a) v (z a).
Definition set_z (v : number) (a : t) : t := mk (x a) (y a) v.
End Vector3.

(** Euler angles, in the default order XYZ. *)
Module Euler.
Record t := mk { x : number; y : number; z : number }.
Definition zero : t := mk 0 0 0.
Definition set_x (v : number) (e : t) : t := mk v (y e) (z e).
Definition set_y (v : number) (e : t) : t := mk (x e) v (z e).
End Euler.

Inductive Side := FrontSide | BackSide | DoubleSide.

Inductive MaterialKind := MeshBasicMaterial | MeshStandardMaterial.

Record MaterialParameters := mkParams {
  p_side : option Side;
  p_transparent : option bool;
  p_color : option number;
  p_opacity : option number
}.

Record Material := mkMaterial {
  kind : MaterialKind;
  side : Side;
  transparent : bool;
  color : number;
  opacity : number
}.

(** [new THREE.MeshBasicMaterial(params)], [new
    THREE.MeshStandardMaterial(params)]: a parameter left out keeps the
    library's default (front side, opaque, white, opacity 1). *)
Definition newMaterial (k : MaterialKind) (p : MaterialParameters) : Material :=
  {| kind := k;
     side := default FrontSide (p_side p);
     transparent := default false (p_transparent p);
     color := default 16777215 (p_color p);
     opacity := default 1 (p_opacity p) |}.

Definition set_color (c : number) (m : Material) : Material :=
  {| kind := kind m; side := side m; transparent := transparent m;
     color := c; opacity := opacity m |}.

Definition set_opacity (o : number) (m : Material) : Material :=
  {| kind := kind m; side := side m; transparent := transparent m;
     color := color m; opacity := o |}.

Inductive Shape :=
| ShapeOfPoints (points : list Vector2.t)
    (** [new THREE.Shape(points)] *)
| ShapeEllipse (aX aY xRadius yRadius aStartAngle aEndAngle : number)
               (aClockwise : bool) (aRotation : number)
    (** [new THREE.Shape().ellipse(...)] *).

(** [new THREE.Shape(points)]: the path starts with a move to
    [points[0]], so an empty array ends the constructor with the
    [TypeError] of [points[0].x] ([Path.setFromPoints]). *)
Definition newShape (points : list Vector2.t) : result Shape :=
  match points with
  | [] => Throw (TypeError "points[0]")
  | _ :: _ => Ok (ShapeOfPoints points)
  end.

Inductive Geometry :=
| PlaneGeometry (width height : number)
| BoxGeometry (width height depth : number)
| ShapeBufferGeometry (shape : Shape).

Record Mesh := mkMesh {
  geometry : Geometry;
  material : Material;
  position : Vector3.t;
  rotation : Euler.t
}.

(** [new THREE.Mesh(geometry, material)]: at the origin, not rotated. *)
Definition newMesh (g : Geometry) (m : Material) : Mesh :=
  {| geometry := g; material := m;
     position := Vector3.zero; rotation := Euler.zero |}.

Definition set_position (p : Vector3.t) (m : Mesh) : Mesh :=
  {| geometry := geometry m; material := material m;
     position := p; rotation := rotation m |}.

Definition set_rotation (e : Euler.t) (m : Mesh) : Mesh :=
  {| geometry := geometry m; material := material m;
     position := position m; rotation := e |}.

Definition set_material (mat : Material) (m : Mesh) : Mesh :=
  {| geometry := geometry m; material := mat;
     position := position m; rotation := rotation m |}.

(** The rotation matrix of an Euler triple in order XYZ applied to a
    vector ([Matrix4.makeRotationFromEuler]). *)
Definition applyEuler (e : Euler.t) (v : Vector3.t) : Vector3.t :=
  let a := cos (Euler.x e) in let b := sin (Euler.x e) in
  let c := cos (Euler.y e) in let d := sin (Euler.y e) in
  let e' := cos (Euler.z e) in let f := sin (Euler.z e) in
  let vx := Vector3.x v in let vy := Vector3.y v in let vz := Vector3.z v in
  Vector3.mk
    (c * e' * vx + - (c * f) * vy + d * vz)
    ((a * f + b * e' * d) * vx + (a * e' - b * f * d) * vy + - (b * c) * vz)
    ((b * f - a * e' * d) * vx + (b * e' + a * f * d) * vy + a * c * vz).

(** World position of a point given in the local frame of a mesh that
    has no parent and unit scale. *)
Definition localToWorld (m : Mesh) (v : Vector3.t) : Vector3.t :=
  Vector3.add (applyEuler (rotation m) v) (position m).

(** [mesh.translateY(distance)]: move along the mesh's own Y axis. *)
Definition translateY (distance : number) (m : Mesh) : Mesh :=
  set_position
    (Vector3.add (position m)
       (Vector3.multiplyScalar (applyEuler (rotation m) (Vector3.mk 0 1 0))
          distance))
    m.

(** Centre, in the shape's own plane, of the outline a geometry draws:
    a plane and a box are centred on the origin, an ellipse on
    ([aX], [aY]); a free polygon has no distinguished centre. *)
Definition footprintCentre (g : Geometry) : option Vector2.t :=
  match g with
  | PlaneGeometry _ _ => Some (Vector2.mk 0 0)
  | BoxGeometry _ _ _ => Some (Vector2.mk 0 0)
  | ShapeBufferGeometry (ShapeEllipse aX aY _ _ _ _ _ _) => Some (Vector2.mk aX aY)
  | ShapeBufferGeometry (ShapeOfPoints _) => None
  end.

End THREE.

(** ** planck-js values *)

Abbreviation BodyRef := nat.

Module planck.

Module Vec2.
Record t := mk { x : number; y : number }.
End Vec2.

Inductive Shape :=
| Box (hx hy : number)
| Polygon (vertices : list Vec2.t).

Inductive BodyType := static | dynamic | kinematic.

Record BodyDef := mkBodyDef {
  type : BodyType;
  position : Vec2.t;
  angle : number;
  linearDamping : option number;
  bullet : option bool;
  angularDamping : option number
}.

Record FixtureDef := mkFixtureDef {
  shape : option Shape;
  density : option number;
  isSensor : bool;
  friction : option number;
  restitution : option number;
  userData : option ZoneUserData.t
}.

(** A body as the world holds it.  The two files only read its pose
    ([getWorldCenter], [getAngle]); velocity and force are what a
    drivetrain may write between two steps of the solver. *)
Record Body := mkBody {
  getWorldCenter : Vec2.t;
  getAngle : number;
  linearVelocity : Vec2.t;
  force : Vec2.t
}.

Definition pose (b : Body) : Vec2.t * number := (getWorldCenter b, getAngle b).

Record PrismaticJointDef := mkJointDef {
  enableLimit : bool;
  lowerTranslation : number;
  upperTranslation : number
}.

(** [new PrismaticJoint(def, bodyA, bodyB, anchor, axis)] *)
Record PrismaticJoint := mkJoint {
  def : PrismaticJointDef;
  bodyA : BodyRef;
  bodyB : BodyRef;
  anchor : Vec2.t;
  axis : Vec2.t
}.

Record World := mkWorld {
  bodies : list Body;
  joints : list PrismaticJoint
}.

(** [world.createJoint(joint)]: the joint becomes the head of the
    world's joint list; no body moves. *)
Definition createJoint (j : PrismaticJoint) (w : World) : World :=
  {| bodies := bodies w; joints := j :: joints w |}.

End planck.

(** ** Declarative specifications *)

(** Modelled from the spec: [IZoneSpec] of [engine/specs/CoreSpecs]:
    [{zoneId, baseColor?, opacity?, initialPosition?, rectangleZone?,
    ellipseZone?, polygonZone?}].  The three shape variants are optional
    fields, so a value may carry none or several of them. *)
Module IZoneSpec.
Record rectangle := mkRectangle { xLength : number; zLength : number }.
Record ellipse := mkEllipse { xRadius : number; zRadius : number }.
Record polygon := mkPolygon { points : list Vector2d.t }.
Record t := mk {
  zoneId : string;
  baseColor : option number;
  opacity : option number;
  initialPosition : option Vector2d.t;
  rectangleZone : option rectangle;
  ellipseZone : option ellipse;
  polygonZone : option polygon
}.
End IZoneSpec.

(** ** SimObject *)

Abbreviation ObjRef := nat.

(** Modelled from the spec: the base class [SimObject] of
    [engine/objects/SimObject]: a unique identifier assigned at
    construction, a type label, the list of children in insertion order, an
    optional mesh and a reference to a physics body that is set once the
    world has created the body.  The identifier is supplied by the caller
    of the constructor. *)
Module SimObject.
Record t := mk {
  guid : string;
  _type : string;
  _children : list ObjRef;
  _mesh : option THREE.Mesh;
  _body : option BodyRef
}.

Definition new (type guid : string) : t :=
  {| guid := guid; _type := type; _children := []; _mesh := None; _body := None |}.

Definition set_mesh (m : option THREE.Mesh) (o : t) : t :=
  {| guid := guid o; _type := _type o; _children := _children o;
     _mesh := m; _body := _body o |}.

Definition setBody (b : BodyRef) (o : t) : t :=
  {| guid := guid o; _type := _type o; _children := _children o;
     _mesh := _mesh o; _body := Some b |}.

Definition addChild (child : ObjRef) (o : t) : t :=
  {| guid := guid o; _type := _type o; _children := _children o ++ [child];
     _mesh := _mesh o; _body := _body o |}.

(** [this._body] as a body of the world: a reference that names no body
    of the world counts as unset. *)
Definition body (w : planck.World) (o : t) : option planck.Body :=
  b ← _body o; planck.bodies w !! b.
End SimObject.

(** ** Zone.ts *)

Module Zone.

Record t := mk {
  base : SimObject.t;
  _bodySpecs : planck.BodyDef;
  _fixtureSpecs : planck.FixtureDef;
  _zoneId : string
}.

Definition set_base (o : SimObject.t) (z : t) : t :=
  {| base := o; _bodySpecs := _bodySpecs z;
     _fixtureSpecs := _fixtureSpecs z; _zoneId := _zoneId z |}.

(** The loop of lines 89-101: every point of the spec is pushed, as a
    [THREE.Vector2], on [shapePoints] and, as a planck [Vec2], on
    [fixturePoints]. *)
Fixpoint pushPoints (points : list Vector2d.t)
    (shapePoints : list THREE.Vector2.t) (fixturePoints : list planck.Vec2.t)
  : list THREE.Vector2.t * list planck.Vec2.t :=
  match points with
  | [] => (shapePoints, fixturePoints)
  | p :: rest =>
      pushPoints rest
        (shapePoints ++ [THREE.Vector2.mk (Vector2d.x p) (Vector2d.y p)])
        (fixturePoints ++ [planck.Vec2.mk (Vector2d.x p) (Vector2d.y p)])
  end.

Definition warning : string := "Some type of zone must be specified".

(** Lines 52-110: the chain of tests on the shape variants.  It yields
    the warnings written to the console and either [fixtureShape] and
    [zoneMesh], which stay [undefined] in the final branch, or the
    exception that [new THREE.Shape] raises on an empty list of points. *)
Definition buildShape (spec : IZoneSpec.t) (initialPosition : Vector2d.t)
    (zoneMaterial : THREE.Material)
  : list string * result (option planck.Shape * option THREE.Mesh) :=
  match IZoneSpec.rectangleZone spec with
  | Some rect =>
      let zoneGeom :=
        THREE.PlaneGeometry (IZoneSpec.xLength rect) (IZoneSpec.zLength rect) in
      ([],
       Ok (Some (planck.Box (IZoneSpec.xLength rect / 2) (IZoneSpec.zLength rect / 2)),
           Some (THREE.newMesh zoneGeom zoneMaterial)))
  | None =>
  match IZoneSpec.ellipseZone spec with
  | Some ell =>
      let xRadius := IZoneSpec.xRadius ell in
      let yRadius := IZoneSpec.zRadius ell in
      let shape :=
        THREE.ShapeEllipse (Vector2d.x initialPosition) (Vector2d.y initialPosition)
          xRadius yRadius 0 (2 * PI) false 0 in
      let zoneGeom := THREE.ShapeBufferGeometry shape in
      ([],
       Ok (Some (planck.Box (IZoneSpec.xRadius ell) (IZoneSpec.zRadius ell)),
           Some (THREE.newMesh zoneGeom zoneMaterial)))
  | None =>
  match IZoneSpec.polygonZone spec with
  | Some poly =>
      let '(shapePoints, fixturePoints) :=
        pushPoints (IZoneSpec.points poly) [] [] in
      match THREE.newShape shapePoints with
      | Throw e => ([], Throw e)
      | Ok shape =>
          let zoneGeom := THREE.ShapeBufferGeometry shape in
          ([],
           Ok (Some (planck.Polygon fixturePoints),
               Some (THREE.newMesh zoneGeom zoneMaterial)))
      end
  | None => ([warning], Ok (None, None))
  end end end.

(** [new Zone(spec)]: the console output and either the object or the
    exception that ends the constructor. *)
Definition new (guid : string) (spec : IZoneSpec.t) : list string * result t :=
  let this := SimObject.new "Zone" guid in
  let _zoneId := IZoneSpec.zoneId spec in
  let materialSpecs :=
    {| THREE.p_side := Some THREE.DoubleSide;
       THREE.p_transparent := Some true;
       THREE.p_color := IZoneSpec.baseColor spec;
       THREE.p_opacity := IZoneSpec.opacity spec |} in
  let initialPosition :=
    match IZoneSpec.initialPosition spec with
    | Some p => Vector2d.mk (Vector2d.x p) (Vector2d.y p)
    | None => Vector2d.mk 0 0
    end in
  let zoneMaterial := THREE.newMaterial THREE.MeshBasicMaterial materialSpecs in
  let '(console, built) := buildShape spec initialPosition zoneMaterial in
  match built with
  | Throw e => (console, Throw e)
  | Ok (fixtureShape, None) => (console, Throw (TypeError "zoneMesh"))
  | Ok (fixtureShape, Some zoneMesh) =>
      let zoneMesh :=
        THREE.set_position (THREE.Vector3.set_y 0 (THREE.position zoneMesh)) zoneMesh in
      let zoneMesh :=
        THREE.set_position
          (THREE.Vector3.set_x (Vector2d.x initialPosition) (THREE.position zoneMesh))
          zoneMesh in
      let zoneMesh :=
        THREE.set_position
          (THREE.Vector3.set_z (Vector2d.y initialPosition) (THREE.position zoneMesh))
          zoneMesh in
      let zoneMesh :=
        THREE.set_rotation (THREE.Euler.set_x (PI / 2) (THREE.rotation zoneMesh))
          zoneMesh in
      let this := SimObject.set_mesh (Some zoneMesh) this in
      let _bodySpecs :=
        {| planck.type := planck.static;
           planck.position :=
             planck.Vec2.mk (Vector2d.x initialPosition) (Vector2d.y initialPosition);
           planck.angle := 0;
           planck.linearDamping := None;
           planck.bullet := None;
           planck.angularDamping := None |} in
      let userData :=
        {| ZoneUserData.selfGuid := SimObject.guid this;
           ZoneUserData.type := "zone";
           ZoneUserData.zone :=
             {| ZoneUserData.id := _zoneId;
                ZoneUserData.color := IZoneSpec.baseColor spec |} |} in
      let _fixtureSpecs :=
        {| planck.shape := fixtureShape;
           planck.density := None;
           planck.isSensor := true;
           planck.friction := None;
           planck.restitution := None;
           planck.userData := Some userData |} in
      (console,
       Ok {| base := this; _bodySpecs := _bodySpecs;
             _fixtureSpecs := _fixtureSpecs; _zoneId := _zoneId |})
  end.

(** [update(ms)]: the world is only read. *)
Definition update (ms : number) (z : t) : M planck.World t :=
  w <- get ;;
  body <- deref "this._body" (SimObject.body w (base z)) ;;
  let bodyCenter := planck.getWorldCenter body in
  mesh <- deref "this._mesh" (SimObject._mesh (base z)) ;;
  let mesh :=
    THREE.set_position
      (THREE.Vector3.set_x (planck.Vec2.x bodyCenter) (THREE.position mesh)) mesh in
  let mesh :=
    THREE.set_position
      (THREE.Vector3.set_z (planck.Vec2.y bodyCenter) (THREE.position mesh)) mesh in
  ret (set_base (SimObject.set_mesh (Some mesh) (base z)) z).

Definition getBodySpecs (z : t) : planck.BodyDef := _bodySpecs z.

Definition getFixtureDef (z : t) : planck.FixtureDef := _fixtureSpecs z.

Definition setColor (color : number) (z : t) : result t :=
  match SimObject._mesh (base z) with
  | None => Throw (TypeError "this._mesh")
  | Some mesh =>
      let mesh := THREE.set_material (THREE.set_color color (THREE.material mesh)) mesh in
      Ok (set_base (SimObject.set_mesh (Some mesh) (base z)) z)
  end.

Definition setOpacity (opacity : number) (z : t) : result t :=
  match SimObject._mesh (base z) with
  | None => Throw (TypeError "this._mesh")
  | Some mesh =>
      let mesh :=
        THREE.set_material (THREE.set_opacity opacity (THREE.material mesh)) mesh in
      Ok (set_base (SimObject.set_mesh (Some mesh) (base z)) z)
  end.

Definition getZoneId (z : t) : string := _zoneId z.

End Zone.

(** [makeZone(spec)] *)
Definition makeZone (guid : string) (spec : IZoneSpec.t) : list string * result Zone.t :=
  Zone.new guid spec.

(** ** SimRobot.ts *)

(** Modelled from the spec: [IRobotSpec] of [engine/specs/RobotSpecs]:
    [{dimensions{x,y,z}, baseColor?, initialPosition?}] and the
    drivetrain-specific fields, which only the drivetrain reads and whose
    type [D] is therefore left open. *)
Module IRobotSpec.
Record dimensions3 := mkDimensions { x : number; y : number; z : number }.
Record t (D : Type) := mk {
  dimensions : dimensions3;
  baseColor : option number;
  initialPosition : option Vector2d.t;
  drivetrain : D
}.
Arguments mk {D}.
Arguments dimensions {D}.
Arguments baseColor {D}.
Arguments initialPosition {D}.
Arguments drivetrain {D}.
End IRobotSpec.

(** The mutable objects a robot shares with the rest of the simulation:
    the physics world and the wheel objects, each named by its index. *)
Record Sim (W : Type) := mkSim {
  world : planck.World;
  objects : list W
}.
Arguments mkSim {W}.
Arguments world {W}.
Arguments objects {W}.

Definition set_world {W} (w : planck.World) (s : Sim W) : Sim W :=
  {| world := w; objects := objects s |}.

(** The classes [SimRobot.ts] imports from files outside [src/], as the
    interface it uses of them: the wheel objects ([wheel.body],
    [childObj.update(ms)]) and [SimRobotDrivetrain] (its constructor,
    [wheelObjects], [yOffset], [update()], [setMotorPower(channel,
    value)]).  A method works on the shared store and, for the drivetrain,
    on the drivetrain's own state. *)
Class Collaborators := {
  Wheel : Type;
  wheel_body : Wheel -> option BodyRef;
  child_update : number -> ObjRef -> M (Sim Wheel) unit;
  DrivetrainSpec : Type;
  Drivetrain : Type;
  Drivetrain_new : IRobotSpec.t DrivetrainSpec -> M (Sim Wheel) Drivetrain;
  wheelObjects : Drivetrain -> list ObjRef;
  yOffset : Drivetrain -> number;
  Drivetrain_update : M (Sim Wheel * Drivetrain) unit;
  Drivetrain_setMotorPower : number -> number -> M (Sim Wheel * Drivetrain) unit
}.

Definition ROBOT_DEFAULT_COLOR : number := 65280.

Module SimRobot.
Section WithCollaborators.
Context {C : Collaborators}.

Record t := mk {
base : SimObject.t;
_bodySpecs : planck.BodyDef;
_fixtureSpecs : planck.FixtureDef;
_drivetrain : Drivetrain
}.

Definition set_base (o : SimObject.t) (r : t) : t :=
{| base := o; _bodySpecs := _bodySpecs r;
   _fixtureSpecs := _fixtureSpecs r; _drivetrain := _drivetrain r |}.

Definition set_drivetrain (d : Drivetrain) (r : t) : t :=
{| base := base r; _bodySpecs := _bodySpecs r;
   _fixtureSpecs := _fixtureSpecs r; _drivetrain := d |}.

(** The state a method of the robot runs on: the shared store and the
  robot object itself. *)
Definition St : Type := Sim Wheel * t.

(** A computation of a collaborator, run from inside a method. *)
Definition onSim {A} (m : M (Sim Wheel) A) : M St A :=
fun st =>
  match m (fst st) with
  | (s', o) => ((s', snd st), o)
  end.

(** A method of [this._drivetrain]. *)
Definition onDrivetrain {A} (m : M (Sim Wheel * Drivetrain) A) : M St A :=
fun st =>
  match m (fst st, _drivetrain (snd st)) with
  | ((s', d'), o) => ((s', set_drivetrain d' (snd st)), o)
  end.

(** [new SimRobot(spec)] *)
Definition new (guid : string) (spec : IRobotSpec.t DrivetrainSpec)
: M (Sim Wheel) t :=
let this := SimObject.new "SimRobot" guid in
let color := default ROBOT_DEFAULT_COLOR (IRobotSpec.baseColor spec) in
let bodyGeom :=
  THREE.BoxGeometry
    (IRobotSpec.x (IRobotSpec.dimensions spec))
    (IRobotSpec.y (IRobotSpec.dimensions spec))
    (IRobotSpec.z (IRobotSpec.dimensions spec)) in
let bodyMaterial :=
  THREE.newMaterial THREE.MeshStandardMaterial
    {| THREE.p_side := None; THREE.p_transparent := None;
       THREE.p_color := Some color; THREE.p_opacity := None |} in
let bodyMesh := THREE.newMesh bodyGeom bodyMaterial in
let this := SimObject.set_mesh (Some bodyMesh) this in
let bodyPos :=
  match IRobotSpec.initialPosition spec with
  | Some p => planck.Vec2.mk (Vector2d.x p) (Vector2d.y p)
  | None => planck.Vec2.mk 0 0
  end in
let _bodySpecs :=
  {| planck.type := planck.dynamic;
     planck.position := bodyPos;
     planck.angle := 0;
     planck.linearDamping := Some 0.5;
     planck.bullet := Some true;
     planck.angularDamping := Some 0.3 |} in
let _fixtureSpecs :=
  {| planck.shape :=
       Some (planck.Box (IRobotSpec.x (IRobotSpec.dimensions spec) / 2)
                        (IRobotSpec.z (IRobotSpec.dimensions spec) / 2));
     planck.density := Some 1;
     planck.isSensor := false;
     planck.friction := Some 0.3;
     planck.restitution := Some 0.4;
     planck.userData := None |} in
_drivetrain <- Drivetrain_new spec ;;
let this :=
  fold_left (fun this wheel => SimObject.addChild wheel this)
    (wheelObjects _drivetrain) this in
mesh <- deref "this._mesh" (SimObject._mesh this) ;;
let this :=
  SimObject.set_mesh (Some (THREE.translateY (- yOffset _drivetrain) mesh)) this in
ret {| base := this; _bodySpecs := _bodySpecs;
       _fixtureSpecs := _fixtureSpecs; _drivetrain := _drivetrain |}.

(** Lines 83-87 of [update]: the drivetrain, then every child in
  insertion order. *)
Definition updateCollaborators (ms : number) : M St unit :=
onDrivetrain Drivetrain_update ;;;
st <- get ;;
forEach (SimObject._children (base (snd st)))
  (fun childObj => onSim (child_update ms childObj)).

(** Lines 90-94 of [update]: the mesh follows the body. *)
Definition updateMesh : M St unit :=
st <- get ;;
body <- deref "this._body" (SimObject.body (world (fst st)) (base (snd st))) ;;
let bodyCenter := planck.getWorldCenter body in
mesh <- deref "this._mesh" (SimObject._mesh (base (snd st))) ;;
let mesh :=
  THREE.set_position
    (THREE.Vector3.set_x (planck.Vec2.x bodyCenter) (THREE.position mesh)) mesh in
let mesh :=
  THREE.set_position
    (THREE.Vector3.set_z (planck.Vec2.y bodyCenter) (THREE.position mesh)) mesh in
let mesh :=
  THREE.set_rotation
    (THREE.Euler.set_y (- planck.getAngle body) (THREE.rotation mesh)) mesh in
modify (fun st : St =>
  (fst st, set_base (SimObject.set_mesh (Some mesh) (base (snd st))) (snd st))).

(** [update(ms)] *)
Definition update (ms : number) : M St unit :=
updateCollaborators ms ;;; updateMesh.

(** The joint [configureFixtureLinks] builds for one wheel.  The
  arguments of [new PrismaticJoint] are evaluated from left to right:
  an unset [wheel.body] throws at [wheel.body.getWorldCenter()], an
  unset [this._body] inside the joint's constructor. *)
Definition linkWheel (wheel : ObjRef) : M St unit :=
st <- get ;;
wheelObj <- deref "wheel" (objects (fst st) !! wheel) ;;
wheelRef <- deref "wheel.body" (wheel_body wheelObj) ;;
wheelBody <- deref "wheel.body" (planck.bodies (world (fst st)) !! wheelRef) ;;
chassis <- deref "this._body" (SimObject._body (base (snd st))) ;;
let joint :=
  {| planck.def :=
       {| planck.enableLimit := true;
          planck.lowerTranslation := 0;
          planck.upperTranslation := 0 |};
     planck.bodyA := chassis;
     planck.bodyB := wheelRef;
     planck.anchor := planck.getWorldCenter wheelBody;
     planck.axis := planck.Vec2.mk 1 0 |} in
modify (fun st : St =>
  (set_world (planck.createJoint joint (world (fst st))) (fst st), snd st)).

(** [configureFixtureLinks(world)], [world] being the world of the
  store. *)
Definition configureFixtureLinks : M St unit :=
st <- get ;;
forEach (wheelObjects (_drivetrain (snd st))) linkWheel.

(** [setMotorPower(channel, value)] *)
Definition setMotorPower (channel value : number) : M St unit :=
onDrivetrain (Drivetrain_setMotorPower channel value).

Definition getBodySpecs (r : t) : planck.BodyDef := _bodySpecs r.

Definition getFixtureDef (r : t) : planck.FixtureDef := _fixtureSpecs r.

End WithCollaborators.
End SimRobot.

(** ** A drivetrain to run the robot with *)

(** Modelled from the spec: [SimRobotDrivetrain] and its wheels, which are
    not under [src/].  The drivetrain owns the wheel objects, reports a
    mounting offset, stores the latest commanded power per channel
    ([setMotorPower]) and, on [update()], turns the commanded powers into
    forces applied to the wheel bodies; a wheel is a [SimObject] whose
    [update] synchronises its mesh from its body's world centre and angle.
    Wheel count and placement are the drivetrain's own policy: this one has
    two wheels, wheel [i] on channel [i], and its drivetrain-specific spec
    field is the wheel radius. *)
Module TwoWheelDrive.

Record t := mk {
  wheels : list ObjRef;
  offset : number;
  power : number -> number
}.

Definition newWheel (guid : string) (radius : number) : SimObject.t :=
  SimObject.set_mesh
    (Some (THREE.newMesh (THREE.BoxGeometry radius radius radius)
             (THREE.newMaterial THREE.MeshStandardMaterial
                (THREE.mkParams None None None None))))
    (SimObject.new "SimRobotWheel" guid).

Definition new (spec : IRobotSpec.t number) : M (Sim SimObject.t) t :=
  s <- get ;;
  let first := length (objects s) in
  let radius := IRobotSpec.drivetrain spec in
  modify (fun s : Sim SimObject.t =>
    {| world := world s;
       objects := objects s ++ [newWheel "wheel-0" radius; newWheel "wheel-1" radius] |}) ;;;
  ret {| wheels := [first; S first]; offset := radius; power := fun _ => 0 |}.

Definition setMotorPower (channel value : number) : M (Sim SimObject.t * t) unit :=
  modify (fun st : Sim SimObject.t * t =>
    (fst st,
     {| wheels := wheels (snd st); offset := offset (snd st);
        power := fun c => if Req_dec_T c channel then value else power (snd st) c |})).

Definition applyForce (f : planck.Vec2.t) (b : planck.Body) : planck.Body :=
  {| planck.getWorldCenter := planck.getWorldCenter b;
     planck.getAngle := planck.getAngle b;
     planck.linearVelocity := planck.linearVelocity b;
     planck.force :=
       planck.Vec2.mk (planck.Vec2.x (planck.force b) + planck.Vec2.x f)
                      (planck.Vec2.y (planck.force b) + planck.Vec2.y f) |}.

Definition set_bodies (bs : list planck.Body) (s : Sim SimObject.t) : Sim SimObject.t :=
  set_world {| planck.bodies := bs; planck.joints := planck.joints (world s) |} s.

Definition driveWheel (cw : nat * ObjRef) : M (Sim SimObject.t * t) unit :=
  st <- get ;;
  wheel <- deref "wheel" (objects (fst st) !! snd cw) ;;
  ref <- deref "wheel.body" (SimObject._body wheel) ;;
  body <- deref "wheel.body" (planck.bodies (world (fst st)) !! ref) ;;
  let f := planck.Vec2.mk (power (snd st) (INR (fst cw))) 0 in
  modify (fun st : Sim SimObject.t * t =>
    (set_bodies (<[ref := applyForce f body]> (planck.bodies (world (fst st)))) (fst st),
     snd st)).

Definition update : M (Sim SimObject.t * t) unit :=
  st <- get ;;
  forEach (imap pair (wheels (snd st))) driveWheel.

Definition wheelUpdate (ms : number) (this : ObjRef) : M (Sim SimObject.t) unit :=
  s <- get ;;
  wheel <- deref "childObj" (objects s !! this) ;;
  body <- deref "this._body" (SimObject.body (world s) wheel) ;;
  mesh <- deref "this._mesh" (SimObject._mesh wheel) ;;
  let mesh :=
    THREE.set_position
      (THREE.Vector3.mk (planck.Vec2.x (planck.getWorldCenter body))
         (THREE.Vector3.y (THREE.position mesh))
         (planck.Vec2.y (planck.getWorldCenter body))) mesh in
  let mesh :=
    THREE.set_rotation
      (THREE.Euler.set_y (- planck.getAngle body) (THREE.rotation mesh)) mesh in
  modify (fun s : Sim SimObject.t =>
    {| world := world s;
       objects := <[this := SimObject.set_mesh (Some mesh) wheel]> (objects s) |}).

Definition collaborators : Collaborators :=
  {| Wheel := SimObject.t;
     wheel_body := SimObject._body;
     child_update := wheelUpdate;
     DrivetrainSpec := number;
     Drivetrain := t;
     Drivetrain_new := new;
     wheelObjects := wheels;
     yOffset := offset;
     Drivetrain_update := update;
     Drivetrain_setMotorPower := setMotorPower |}.

End TwoWheelDrive.

(** ** Vocabulary of the properties *)

(** Whether an optional field of a spec is present. *)
Definition present {A} (o : option A) : bool :=
  match o with Some _ => true | None => false end.

(** Number of shape variants a zone spec carries. *)
Definition shapeCount (spec : IZoneSpec.t) : nat :=
  ((if present (IZoneSpec.rectangleZone spec) then 1 else 0)
   + (if present (IZoneSpec.ellipseZone spec) then 1 else 0)
   + (if present (IZoneSpec.polygonZone spec) then 1 else 0))%nat.

(** A valid zone spec has exactly one shape variant, and a polygon has at
    least three points. *)
Definition validZoneSpec (spec : IZoneSpec.t) : Prop :=
  shapeCount spec = 1%nat /\
  forall poly, IZoneSpec.polygonZone spec = Some poly ->
               (3 <= length (IZoneSpec.points poly))%nat.

(** The initial position the constructors work with: the spec's, or the
    origin. *)
Definition initialPositionOf (p : option Vector2d.t) : Vector2d.t :=
  match p with
  | Some p => Vector2d.mk (Vector2d.x p) (Vector2d.y p)
  | None => Vector2d.mk 0 0
  end.

Inductive ShapeKind := rectangle | ellipse | polygon.

(** The first variant present, in the order rectangle, ellipse, polygon. *)
Definition firstShape (spec : IZoneSpec.t) : option ShapeKind :=
  if present (IZoneSpec.rectangleZone spec) then Some rectangle
  else if present (IZoneSpec.ellipseZone spec) then Some ellipse
  else if present (IZoneSpec.polygonZone spec) then Some polygon
  else None.

(** The spec with every shape variant but [k] removed. *)
Definition keepOnly (k : ShapeKind) (spec : IZoneSpec.t) : IZoneSpec.t :=
  {| IZoneSpec.zoneId := IZoneSpec.zoneId spec;
     IZoneSpec.baseColor := IZoneSpec.baseColor spec;
     IZoneSpec.opacity := IZoneSpec.opacity spec;
     IZoneSpec.initialPosition := IZoneSpec.initialPosition spec;
     IZoneSpec.rectangleZone :=
       match k with rectangle => IZoneSpec.rectangleZone spec | _ => None end;
     IZoneSpec.ellipseZone :=
       match k with ellipse => IZoneSpec.ellipseZone spec | _ => None end;
     IZoneSpec.polygonZone :=
       match k with polygon => IZoneSpec.polygonZone spec | _ => None end |}.

(** A point of the horizontal plane of the scene, in the coordinates of
    the physics world: [update] copies a body's [(x, y)] into a mesh's
    [(x, z)]. *)
Definition groundPoint (v : THREE.Vector3.t) : planck.Vec2.t :=
  planck.Vec2.mk (THREE.Vector3.x v) (THREE.Vector3.z v).

(** World position of the centre of the outline a mesh draws. *)
Definition footprintWorldCentre (m : THREE.Mesh) : option THREE.Vector3.t :=
  c ← THREE.footprintCentre (THREE.geometry m);
  Some (THREE.localToWorld m (THREE.Vector3.mk (THREE.Vector2.x c) (THREE.Vector2.y c) 0)).

(** The visual transform of an object: position and rotation of its
    mesh. *)
Definition visualTransform (o : SimObject.t) : option (THREE.Vector3.t * THREE.Euler.t) :=
  m ← SimObject._mesh o; Some (THREE.position m, THREE.rotation m).

(** Calls of the two mutators of a zone. *)
Inductive Mutator := SetColor (color : number) | SetOpacity (opacity : number).

Definition mutate (c : Mutator) (z : Zone.t) : result Zone.t :=
  match c with
  | SetColor color => Zone.setColor color z
  | SetOpacity opacity => Zone.setOpacity opacity z
  end.

Fixpoint mutateAll (cs : list Mutator) (z : Zone.t) : result Zone.t :=
  match cs with
  | [] => Ok z
  | c :: cs' =>
      match mutate c z with
      | Ok z' => mutateAll cs' z'
      | Throw e => Throw e
      end
  end.

(** The poses of the bodies of the world, in the order of their
    indices. *)
Definition poses {W} (s : Sim W) : list (planck.Vec2.t * number) :=
  map planck.pose (planck.bodies (world s)).

(** Collaborators that leave every body where it is: only a step of the
    solver moves a body. *)
Class PosePreserving (C : Collaborators) : Prop := {
  child_update_poses : forall ms child s,
    poses (fst (child_update ms child s)) = poses s;
  Drivetrain_update_poses : forall st,
    poses (fst (fst (Drivetrain_update st))) = poses (fst st)
}.

(** A wheel that is ready to be linked: the object exists, its body is
    set and is a body of the world. *)
Definition wheelReady `{C : Collaborators} (s : Sim Wheel) (wheel : ObjRef)
    (b : BodyRef) (body : planck.Body) : Prop :=
  exists wheelObj,
    objects s !! wheel = Some wheelObj /\
    wheel_body wheelObj = Some b /\
    planck.bodies (world s) !! b = Some body.

(** The joint [configureFixtureLinks] is expected to create for a wheel
    whose body [b] is at [body]. *)
Definition isWheelLink (chassis : BodyRef) (b : BodyRef) (body : planck.Body)
    (j : planck.PrismaticJoint) : Prop :=
  planck.enableLimit (planck.def j) = true /\
  planck.lowerTranslation (planck.def j) = 0 /\
  planck.upperTranslation (planck.def j) = 0 /\
  planck.bodyA j = chassis /\
  planck.bodyB j = b /\
  planck.anchor j = planck.getWorldCenter body /\
  planck.axis j = planck.Vec2.mk 1 0.

(** The material the [Zone] constructor builds from a spec. *)
Definition zoneMaterialOf (spec : IZoneSpec.t) : THREE.Material :=
  THREE.newMaterial THREE.MeshBasicMaterial
    (THREE.mkParams (Some THREE.DoubleSide) (Some true)
       (IZoneSpec.baseColor spec) (IZoneSpec.opacity spec)).

(** The object the [Zone] constructor returns once the chain of tests has
    produced [fixtureShape] and [zoneMesh]. *)
Definition builtZone (guid : string) (spec : IZoneSpec.t)
    (fixtureShape : option planck.Shape) (zoneMesh : THREE.Mesh) : Zone.t :=
  let ip := initialPositionOf (IZoneSpec.initialPosition spec) in
  {| Zone.base :=
       SimObject.set_mesh
         (Some (THREE.mkMesh (THREE.geometry zoneMesh) (THREE.material zoneMesh)
                  (THREE.Vector3.mk (Vector2d.x ip) 0 (Vector2d.y ip))
                  (THREE.Euler.mk (PI / 2)
                     (THREE.Euler.y (THREE.rotation zoneMesh))
                     (THREE.Euler.z (THREE.rotation zoneMesh)))))
         (SimObject.new "Zone" guid);
     Zone._bodySpecs :=
       planck.mkBodyDef planck.static
         (planck.Vec2.mk (Vector2d.x ip) (Vector2d.y ip)) 0 None None None;
     Zone._fixtureSpecs :=
       planck.mkFixtureDef fixtureShape None true None None
         (Some (ZoneUserData.mk guid "zone"
                  (ZoneUserData.mkZone (IZoneSpec.zoneId spec)
                     (IZoneSpec.baseColor spec))));
     Zone._zoneId := IZoneSpec.zoneId spec |}.

(** Coordinates shared by a point of the visual shape and a vertex of the
    fixture. *)
Definition sameCoordinates (p : THREE.Vector2.t) (q : planck.Vec2.t) : Prop :=
  THREE.Vector2.x p = planck.Vec2.x q /\ THREE.Vector2.y p = planck.Vec2.y q.

(** Example specs. *)
Definition noShapeSpec : IZoneSpec.t :=
  IZoneSpec.mk "goal" (Some 255) None None None None None.

Definition rectangleSpec : IZoneSpec.t :=
  IZoneSpec.mk "goal" None None None (Some (IZoneSpec.mkRectangle 4 2)) None None.

Definition ellipseSpec : IZoneSpec.t :=
  IZoneSpec.mk "goal" None None (Some (Vector2d.mk 1 0)) None
    (Some (IZoneSpec.mkEllipse 1 1)) None.

Definition triangle : list Vector2d.t :=
  [Vector2d.mk 0 0; Vector2d.mk 1 0; Vector2d.mk 0 1].

Definition polygonSpec : IZoneSpec.t :=
  IZoneSpec.mk "goal" (Some 255) (Some 0.5) (Some (Vector2d.mk 3 4)) None None
    (Some (IZoneSpec.mkPolygon triangle)).

Definition allShapesSpec : IZoneSpec.t :=
  IZoneSpec.mk "goal" None None None (Some (IZoneSpec.mkRectangle 4 2))
    (Some (IZoneSpec.mkEllipse 1 1)) (Some (IZoneSpec.mkPolygon triangle)).

(** What [setColor] and [setOpacity] keep of a zone: everything but the
    material of its mesh. *)
Definition sameButMaterial (z z' : Zone.t) : Prop :=
  Zone.getBodySpecs z' = Zone.getBodySpecs z /\
  Zone.getFixtureDef z' = Zone.getFixtureDef z /\
  Zone.getZoneId z' = Zone.getZoneId z /\
  SimObject.guid (Zone.base z') = SimObject.guid (Zone.base z) /\
  SimObject._body (Zone.base z') = SimObject._body (Zone.base z) /\
  exists mesh mesh',
    SimObject._mesh (Zone.base z) = Some mesh /\
    SimObject._mesh (Zone.base z') = Some mesh' /\
    THREE.geometry mesh' = THREE.geometry mesh /\
    THREE.position mesh' = THREE.position mesh /\
    THREE.rotation mesh' = THREE.rotation mesh.

(** A mesh whose position follows a body's world centre on the ground;
    height and rotation stay ([Zone.update]). *)
Definition followCentre (body : planck.Body) (mesh : THREE.Mesh) : THREE.Mesh :=
  THREE.mkMesh (THREE.geometry mesh) (THREE.material mesh)
    (THREE.Vector3.mk (planck.Vec2.x (planck.getWorldCenter body))
       (THREE.Vector3.y (THREE.position mesh))
       (planck.Vec2.y (planck.getWorldCenter body)))
    (THREE.rotation mesh).

(** A mesh that follows a body's world centre and whose yaw is the
    opposite of the body's angle ([SimRobot.update]). *)
Definition followPose (body : planck.Body) (mesh : THREE.Mesh) : THREE.Mesh :=
  THREE.mkMesh (THREE.geometry mesh) (THREE.material mesh)
    (THREE.Vector3.mk (planck.Vec2.x (planck.getWorldCenter body))
       (THREE.Vector3.y (THREE.position mesh))
       (planck.Vec2.y (planck.getWorldCenter body)))
    (THREE.Euler.mk (THREE.Euler.x (THREE.rotation mesh))
       (- planck.getAngle body)
       (THREE.Euler.z (THREE.rotation mesh))).

(** The store with the joint list of its world replaced. *)
Definition withJoints {W} (js : list planck.PrismaticJoint) (s : Sim W) : Sim W :=
  set_world {| planck.bodies := planck.bodies (world s); planck.joints := js |} s.

(** A scene for the two-wheel robot: the robot of the spec
    [dimensions{x:2, y:1, z:3}], no colour, no initial position, wheel
    radius 1, constructed in an empty store; then a world with a body for
    the chassis (index 0) and one for each wheel (indices 1 and 2), set on
    the objects as a scene builder does after creating the bodies. *)
Definition exampleRobotSpec : IRobotSpec.t number :=
  IRobotSpec.mk (IRobotSpec.mkDimensions 2 1 3) None None 1.

Definition emptySim : Sim SimObject.t :=
  {| world := {| planck.bodies := []; planck.joints := [] |}; objects := [] |}.

Definition exampleBodies : list planck.Body :=
  [ planck.mkBody (planck.Vec2.mk 5 7) 0.25 (planck.Vec2.mk 0 0) (planck.Vec2.mk 0 0);
    planck.mkBody (planck.Vec2.mk 4 7) 0.25 (planck.Vec2.mk 0 0) (planck.Vec2.mk 0 0);
    planck.mkBody (planck.Vec2.mk 6 7) 0.25 (planck.Vec2.mk 0 0) (planck.Vec2.mk 0 0) ].

Definition attachBodies
    (st : Sim SimObject.t * SimRobot.t (C := TwoWheelDrive.collaborators))
  : Sim SimObject.t * SimRobot.t (C := TwoWheelDrive.collaborators) :=
  ({| world := {| planck.bodies := exampleBodies; planck.joints := [] |};
      objects := imap (fun i wheel => SimObject.setBody (S i) wheel) (objects (fst st)) |},
   SimRobot.set_base (SimObject.setBody 0%nat (SimRobot.base (snd st))) (snd st)).

Definition exampleWorld : planck.World :=
  {| planck.bodies := exampleBodies; planck.joints := [] |}.

(** The robot of [exampleRobotSpec] once constructed and given its
    bodies. *)
Definition exampleScene
  : option (Sim SimObject.t * SimRobot.t (C := TwoWheelDrive.collaborators)) :=
  match SimRobot.new (C := TwoWheelDrive.collaborators) "robot-1" exampleRobotSpec emptySim with
  | (s, Ok r) => Some (attachBodies (s, r))
  | (_, Throw _) => None
  end.

Definition exampleMutators : list Mutator :=
  [SetColor 16711680; SetOpacity 0.25; SetColor 255].

(** ** Vocabulary of the further properties *)

(** [r] and then [f]: the second call is made only when the first
    returns. *)
Definition andThen {A B} (r : result A) (f : A -> result B) : result B :=
  match r with
  | Ok a => f a
  | Throw e => Throw e
  end.

(** The scene sets the body of a zone once the world has created it. *)
Definition Zone_setBody (b : BodyRef) (z : Zone.t) : Zone.t :=
  Zone.set_base (SimObject.setBody b (Zone.base z)) z.

(** What happens to a zone during its life: the scene sets its body, a
    frame updates it against the world as it then is, a caller recolours
    it. *)
Inductive ZoneOp :=
| Attach (b : BodyRef)
| Update (ms : number) (w : planck.World)
| Mutate (m : Mutator).

Definition zoneStep (op : ZoneOp) (z : Zone.t) : result Zone.t :=
  match op with
  | Attach b => Ok (Zone_setBody b z)
  | Update ms w => snd (Zone.update ms z w)
  | Mutate m => mutate m z
  end.

Fixpoint zoneRun (ops : list ZoneOp) (z : Zone.t) : result Zone.t :=
  match ops with
  | [] => Ok z
  | op :: ops' => andThen (zoneStep op z) (zoneRun ops')
  end.

(** A zone's mesh lies flat on the ground: height 0, a quarter turn about
    the x axis and no other rotation. *)
Definition flatOnGround (z : Zone.t) : Prop :=
  exists mesh,
    SimObject._mesh (Zone.base z) = Some mesh /\
    THREE.Vector3.y (THREE.position mesh) = 0 /\
    THREE.rotation mesh = THREE.Euler.mk (PI / 2) 0 0.

(** What no step of a zone's life changes: the specs, the identifiers, the
    geometry, the height and the rotation of the mesh. *)
Definition sameFootprint (z z' : Zone.t) : Prop :=
  Zone.getBodySpecs z' = Zone.getBodySpecs z /\
  Zone.getFixtureDef z' = Zone.getFixtureDef z /\
  Zone.getZoneId z' = Zone.getZoneId z /\
  SimObject.guid (Zone.base z') = SimObject.guid (Zone.base z) /\
  exists mesh mesh',
    SimObject._mesh (Zone.base z) = Some mesh /\
    SimObject._mesh (Zone.base z') = Some mesh' /\
    THREE.geometry mesh' = THREE.geometry mesh /\
    THREE.Vector3.y (THREE.position mesh') = THREE.Vector3.y (THREE.position mesh) /\
    THREE.rotation mesh' = THREE.rotation mesh.

(** Where the world puts the point [v], given in a body's own frame, of a
    body created from [def]: turned by the body's angle, moved to its
    position ([Transform.mulVec2]). *)
Definition bodyPoint (def : planck.BodyDef) (v : planck.Vec2.t) : planck.Vec2.t :=
  let c := cos (planck.angle def) in
  let s := sin (planck.angle def) in
  planck.Vec2.mk
    (c * planck.Vec2.x v - s * planck.Vec2.y v + planck.Vec2.x (planck.position def))
    (s * planck.Vec2.x v + c * planck.Vec2.y v + planck.Vec2.y (planck.position def)).

(** Where a mesh shows on the ground the point [p] of its flat shape. *)
Definition shownAt (mesh : THREE.Mesh) (p : THREE.Vector2.t) : planck.Vec2.t :=
  groundPoint
    (THREE.localToWorld mesh
       (THREE.Vector3.mk (THREE.Vector2.x p) (THREE.Vector2.y p) 0)).

(** The robot of [exampleRobotSpec] as its constructor leaves it. *)
Definition exampleConstructed
  : option (Sim SimObject.t * SimRobot.t (C := TwoWheelDrive.collaborators)) :=
  match SimRobot.new (C := TwoWheelDrive.collaborators) "robot-1" exampleRobotSpec emptySim with
  | (s, Ok r) => Some (s, r)
  | (_, Throw _) => None
  end.

(** The example scene with bodies on the chassis and on the first [n]
    wheels only. *)
Definition attachSome (n : nat)
    (st : Sim SimObject.t * SimRobot.t (C := TwoWheelDrive.collaborators))
  : Sim SimObject.t * SimRobot.t (C := TwoWheelDrive.collaborators) :=
  ({| world := exampleWorld;
      objects :=
        imap (fun i wheel => if (i <? n)%nat then SimObject.setBody (S i) wheel else wheel)
          (objects (fst st)) |},
   SimRobot.set_base (SimObject.setBody 0%nat (SimRobot.base (snd st))) (snd st)).

(** The example scene with bodies on the wheels and none on the
    chassis. *)
Definition attachWheelsOnly
    (st : Sim SimObject.t * SimRobot.t (C := TwoWheelDrive.collaborators))
  : Sim SimObject.t * SimRobot.t (C := TwoWheelDrive.collaborators) :=
  (fst (attachBodies st), snd st).

(** A rectangle spec placed away from the origin, and a world whose body 0
    rests where that spec puts its zone. *)
Definition restingWorld : planck.World :=
  {| planck.bodies :=
       [planck.mkBody (planck.Vec2.mk 3 4) 0 (planck.Vec2.mk 0 0) (planck.Vec2.mk 0 0)];
     planck.joints := [] |}.

Definition placedRectangleSpec : IZoneSpec.t :=
  IZoneSpec.mk "goal" None None (Some (Vector2d.mk 3 4))
    (Some (IZoneSpec.mkRectangle 4 2)) None None.

Definition exampleZoneLife : list ZoneOp :=
  [Mutate (SetColor 255); Attach 0%nat; Update 16 exampleWorld;
   Mutate (SetOpacity 0.25); Update 16 restingWorld].

(** The colour a sequence of mutator calls leaves in a material whose
    colour was [color]: that of the last [setColor], if any. *)
Fixpoint finalColor (cs : list Mutator) (color : number) : number :=
  match cs with
  | [] => color
  | SetColor color' :: cs' => finalColor cs' color'
  | SetOpacity _ :: cs' => finalColor cs' color
  end.

(** The opacity a sequence of mutator calls leaves in a material whose
    opacity was [opacity]: that of the last [setOpacity], if any. *)
Fixpoint finalOpacity (cs : list Mutator) (opacity : number) : number :=
  match cs with
  | [] => opacity
  | SetColor _ :: cs' => finalOpacity cs' opacity
  | SetOpacity opacity' :: cs' => finalOpacity cs' opacity'
  end.

(** The zone [z], whose mesh is [mesh], with the colour and the opacity of
    the material replaced and nothing else: same kind, side and
    transparency of the material, same geometry, position and rotation of
    the mesh, same identifier, type, children and body of the object, same
    specs and zone id. *)
Definition repainted (mesh : THREE.Mesh) (color opacity : number) (z : Zone.t) : Zone.t :=
  Zone.mk
    (SimObject.mk (SimObject.guid (Zone.base z)) (SimObject._type (Zone.base z))
       (SimObject._children (Zone.base z))
       (Some (THREE.mkMesh (THREE.geometry mesh)
                (THREE.mkMaterial (THREE.kind (THREE.material mesh))
                   (THREE.side (THREE.material mesh))
                   (THREE.transparent (THREE.material mesh))
                   color opacity)
                (THREE.position mesh) (THREE.rotation mesh)))
       (SimObject._body (Zone.base z)))
    (Zone._bodySpecs z) (Zone._fixtureSpecs z) (Zone._zoneId z).

(** What the constructor is to build from the variant [k] of a spec alone,
    for the initial position [ip]: the fixture shape and the geometry of
    the mesh. *)
Definition variantShapes (k : ShapeKind) (spec : IZoneSpec.t) (ip : Vector2d.t)
  : option (planck.Shape * THREE.Geometry) :=
  match k with
  | rectangle =>
      rect ← IZoneSpec.rectangleZone spec;
      Some (planck.Box (IZoneSpec.xLength rect / 2) (IZoneSpec.zLength rect / 2),
            THREE.PlaneGeometry (IZoneSpec.xLength rect) (IZoneSpec.zLength rect))
  | ellipse =>
      ell ← IZoneSpec.ellipseZone spec;
      Some (planck.Box (IZoneSpec.xRadius ell) (IZoneSpec.zRadius ell),
            THREE.ShapeBufferGeometry
              (THREE.ShapeEllipse (Vector2d.x ip) (Vector2d.y ip)
                 (IZoneSpec.xRadius ell) (IZoneSpec.zRadius ell) 0 (2 * PI) false 0))
  | polygon =>
      poly ← IZoneSpec.polygonZone spec;
      Some (planck.Polygon
              (map (fun p => planck.Vec2.mk (Vector2d.x p) (Vector2d.y p))
                 (IZoneSpec.points poly)),
            THREE.ShapeBufferGeometry
              (THREE.ShapeOfPoints
                 (map (fun p => THREE.Vector2.mk (Vector2d.x p) (Vector2d.y p))
                    (IZoneSpec.points poly))))
  end.

(** The variant the constructor reaches is a polygon without points. *)
Definition emptyPolygonFirst (spec : IZoneSpec.t) : Prop :=
  IZoneSpec.rectangleZone spec = None /\
  IZoneSpec.ellipseZone spec = None /\
  exists poly, IZoneSpec.polygonZone spec = Some poly /\ IZoneSpec.points poly = [].

Definition emptyPolygonSpec : IZoneSpec.t :=
  IZoneSpec.mk "goal" None None None None None (Some (IZoneSpec.mkPolygon [])).

(** ** Zone: construction *)

Section ZoneConstruction.
Variable guid : string.

Lemma new_of_buildShape spec :
  Zone.new guid spec =
  match Zone.buildShape spec (initialPositionOf (IZoneSpec.initialPosition spec))
          (zoneMaterialOf spec) with
  | (console, Ok (fixtureShape, Some zoneMesh)) =>
      (console, Ok (builtZone guid spec fixtureShape zoneMesh))
  | (console, Ok (_, None)) => (console, Throw (TypeError "zoneMesh"))
  | (console, Throw e) => (console, Throw e)
  end.
Proof.
  unfold Zone.new, initialPositionOf, zoneMaterialOf.
  destruct (Zone.buildShape _ _ _) as [console [[fixtureShape [zoneMesh|]]|e]];
    reflexivity.
Qed.

Lemma pushPoints_map points : forall shapePoints fixturePoints,
  Zone.pushPoints points shapePoints fixturePoints =
  (shapePoints ++ map (fun p => THREE.Vector2.mk (Vector2d.x p) (Vector2d.y p)) points,
   fixturePoints ++ map (fun p => planck.Vec2.mk (Vector2d.x p) (Vector2d.y p)) points).
Proof.
  induction points as [|p rest IH]; intros sp fp; simpl.
  - now rewrite !app_nil_r.
  - rewrite IH, <- !app_assoc. reflexivity.
Qed.

(** The three branches of the chain of tests, and its fall-through. *)
Lemma buildShape_rectangle spec ip mat rect :
  IZoneSpec.rectangleZone spec = Some rect ->
  Zone.buildShape spec ip mat =
  ([],
   Ok (Some (planck.Box (IZoneSpec.xLength rect / 2) (IZoneSpec.zLength rect / 2)),
       Some (THREE.newMesh
               (THREE.PlaneGeometry (IZoneSpec.xLength rect) (IZoneSpec.zLength rect))
               mat))).
Proof. intros H. unfold Zone.buildShape. now rewrite H. Qed.

Lemma buildShape_ellipse spec ip mat ell :
  IZoneSpec.rectangleZone spec = None ->
  IZoneSpec.ellipseZone spec = Some ell ->
  Zone.buildShape spec ip mat =
  ([],
   Ok (Some (planck.Box (IZoneSpec.xRadius ell) (IZoneSpec.zRadius ell)),
       Some (THREE.newMesh
               (THREE.ShapeBufferGeometry
                  (THREE.ShapeEllipse (Vector2d.x ip) (Vector2d.y ip)
                     (IZoneSpec.xRadius ell) (IZoneSpec.zRadius ell)
                     0 (2 * PI) false 0)) mat))).
Proof. intros Hr He. unfold Zone.buildShape. now rewrite Hr, He. Qed.

Lemma buildShape_polygon spec ip mat poly :
  IZoneSpec.rectangleZone spec = None ->
  IZoneSpec.ellipseZone spec = None ->
  IZoneSpec.polygonZone spec = Some poly ->
  IZoneSpec.points poly <> [] ->
  Zone.buildShape spec ip mat =
  ([],
   Ok (Some (planck.Polygon
               (map (fun p => planck.Vec2.mk (Vector2d.x p) (Vector2d.y p))
                    (IZoneSpec.points poly))),
       Some (THREE.newMesh
               (THREE.ShapeBufferGeometry
                  (THREE.ShapeOfPoints
                     (map (fun p => THREE.Vector2.mk (Vector2d.x p) (Vector2d.y p))
                          (IZoneSpec.points poly)))) mat))).
Proof.
  intros Hr He Hp Hne. unfold Zone.buildShape.
  rewrite Hr, He, Hp, pushPoints_map.
  destruct (IZoneSpec.points poly) as [|p rest]; [contradiction|reflexivity].
Qed.

(** The polygon branch on an empty list of points: [new THREE.Shape]
    throws before any mesh or fixture shape exists (line 103). *)
Lemma buildShape_empty_polygon spec ip mat poly :
  IZoneSpec.rectangleZone spec = None ->
  IZoneSpec.ellipseZone spec = None ->
  IZoneSpec.polygonZone spec = Some poly ->
  IZoneSpec.points poly = [] ->
  Zone.buildShape spec ip mat = ([], Throw (TypeError "points[0]")).
Proof.
  intros Hr He Hp Hnil. unfold Zone.buildShape.
  now rewrite Hr, He, Hp, Hnil.
Qed.

(** A valid spec has no polygon without points. *)
Lemma valid_polygon_nonempty spec poly :
  validZoneSpec spec ->
  IZoneSpec.polygonZone spec = Some poly ->
  IZoneSpec.points poly <> [].
Proof.
  intros [_ Hlen] Hp Hnil. specialize (Hlen poly Hp).
  rewrite Hnil in Hlen. simpl in Hlen. lia.
Qed.

Lemma buildShape_none spec ip mat :
  shapeCount spec = 0%nat ->
  Zone.buildShape spec ip mat = ([Zone.warning], Ok (None, None)).
Proof.
  unfold shapeCount, Zone.buildShape.
  destruct (IZoneSpec.rectangleZone spec), (IZoneSpec.ellipseZone spec),
    (IZoneSpec.polygonZone spec); simpl; intros H; try discriminate H.
  reflexivity.
Qed.

(** With a shape variant present, and points in the polygon if there is
    one, the chain of tests yields a fixture shape and a mesh and writes
    nothing to the console. *)
Lemma buildShape_some spec ip mat :
  shapeCount spec <> 0%nat ->
  (forall poly, IZoneSpec.polygonZone spec = Some poly -> IZoneSpec.points poly <> []) ->
  exists shape mesh, Zone.buildShape spec ip mat = ([], Ok (Some shape, Some mesh)).
Proof.
  intros H Hne.
  destruct (IZoneSpec.rectangleZone spec) as [rect|] eqn:Hr.
  { erewrite buildShape_rectangle by eassumption. eauto. }
  destruct (IZoneSpec.ellipseZone spec) as [ell|] eqn:He.
  { erewrite buildShape_ellipse by eassumption. eauto. }
  destruct (IZoneSpec.polygonZone spec) as [poly|] eqn:Hp.
  { erewrite buildShape_polygon by (eassumption || (apply Hne; reflexivity)). eauto. }
  exfalso. apply H. unfold shapeCount. now rewrite Hr, He, Hp.
Qed.

(** C1. With no shape variant in the spec the constructor writes the
    warning to the console and is then ended by the [TypeError] of
    [zoneMesh.position] on the [undefined] mesh (line 112): no [Zone]
    object comes out of it, with or without a mesh. *)
Theorem no_shape_warns_then_throws spec :
  shapeCount spec = 0%nat ->
  makeZone guid spec = ([Zone.warning], Throw (TypeError "zoneMesh")).
Proof.
  intros H. unfold makeZone. rewrite new_of_buildShape.
  now rewrite buildShape_none.
Qed.

(** C2. A valid zone spec (exactly one shape variant) is constructed
    without warning, and whichever the variant, the fixture is a sensor
    and the body is static. *)
Theorem valid_zone_is_static_sensor spec :
  validZoneSpec spec ->
  exists z,
    makeZone guid spec = ([], Ok z) /\
    planck.isSensor (Zone.getFixtureDef z) = true /\
    planck.type (Zone.getBodySpecs z) = planck.static.
Proof.
  intros Hvalid. pose proof Hvalid as [Hone _].
  unfold makeZone. rewrite new_of_buildShape.
  destruct (buildShape_some spec
              (initialPositionOf (IZoneSpec.initialPosition spec))
              (zoneMaterialOf spec)) as (shape & mesh & ->).
  { rewrite Hone. discriminate. }
  { intros poly Hp. exact (valid_polygon_nonempty spec poly Hvalid Hp). }
  eexists. split; [reflexivity|]. split; reflexivity.
Qed.

(** C7. A rectangle spec with [xLength = L] and [zLength = W] gives the
    box fixture of half-extents [(L/2, W/2)], a plane of dimensions [L]
    by [W], and a mesh turned by [PI/2] about the x axis and by nothing
    about the other two. *)
Theorem rectangle_zone_shapes spec rect :
  IZoneSpec.rectangleZone spec = Some rect ->
  exists z mesh,
    makeZone guid spec = ([], Ok z) /\
    planck.shape (Zone.getFixtureDef z) =
      Some (planck.Box (IZoneSpec.xLength rect / 2) (IZoneSpec.zLength rect / 2)) /\
    SimObject._mesh (Zone.base z) = Some mesh /\
    THREE.geometry mesh =
      THREE.PlaneGeometry (IZoneSpec.xLength rect) (IZoneSpec.zLength rect) /\
    THREE.rotation mesh = THREE.Euler.mk (PI / 2) 0 0.
Proof.
  intros H. unfold makeZone. rewrite new_of_buildShape.
  erewrite buildShape_rectangle by eassumption.
  do 2 eexists. repeat split; reflexivity.
Qed.

(** C8. For a valid polygon spec the points of the visual shape and the
    vertices handed to the fixture polygon both follow the spec's list:
    same length, and at every index the same coordinates as the spec's
    point there, hence as each other. *)
Theorem polygon_zone_points spec poly :
  validZoneSpec spec ->
  IZoneSpec.polygonZone spec = Some poly ->
  exists z mesh shapePoints fixturePoints,
    makeZone guid spec = ([], Ok z) /\
    SimObject._mesh (Zone.base z) = Some mesh /\
    THREE.geometry mesh = THREE.ShapeBufferGeometry (THREE.ShapeOfPoints shapePoints) /\
    planck.shape (Zone.getFixtureDef z) = Some (planck.Polygon fixturePoints) /\
    length shapePoints = length (IZoneSpec.points poly) /\
    length fixturePoints = length (IZoneSpec.points poly) /\
    (forall i p, IZoneSpec.points poly !! i = Some p ->
       shapePoints !! i = Some (THREE.Vector2.mk (Vector2d.x p) (Vector2d.y p)) /\
       fixturePoints !! i = Some (planck.Vec2.mk (Vector2d.x p) (Vector2d.y p))) /\
    (forall i sv fv, shapePoints !! i = Some sv -> fixturePoints !! i = Some fv ->
       sameCoordinates sv fv).
Proof.
  intros Hvalid Hp. pose proof Hvalid as [Hone _].
  pose proof (valid_polygon_nonempty spec poly Hvalid Hp) as Hne.
  assert (Hr : IZoneSpec.rectangleZone spec = None).
  { unfold shapeCount in Hone. rewrite Hp in Hone.
    destruct (IZoneSpec.rectangleZone spec); [|reflexivity].
    destruct (IZoneSpec.ellipseZone spec); discriminate. }
  assert (He : IZoneSpec.ellipseZone spec = None).
  { unfold shapeCount in Hone. rewrite Hp, Hr in Hone.
    destruct (IZoneSpec.ellipseZone spec); [discriminate|reflexivity]. }
  unfold makeZone. rewrite new_of_buildShape.
  erewrite buildShape_polygon by eassumption.
  do 4 eexists. split; [reflexivity|]. split; [reflexivity|].
  split; [reflexivity|]. split; [reflexivity|].
  split; [apply length_map|]. split; [apply length_map|]. split.
  - intros i p Hi. rewrite !list_lookup_fmap, Hi. split; reflexivity.
  - intros i sv fv. rewrite !list_lookup_fmap.
    destruct (IZoneSpec.points poly !! i) as [p|]; simpl; [|discriminate].
    intros [= <-] [= <-]. split; reflexivity.
Qed.

(** C10. When a spec carries more than one shape variant the constructor
    returns without warning or exception, and the zone it returns is made
    of the first variant in the order rectangle, ellipse, polygon: its
    fixture shape and the geometry of its mesh are those of that variant,
    and it is exactly the zone the constructor builds from the spec with
    the other variants removed. *)
Theorem several_shapes_first_wins spec :
  (2 <= shapeCount spec)%nat ->
  exists k z shape geom mesh,
    firstShape spec = Some k /\
    makeZone guid spec = ([], Ok z) /\
    makeZone guid (keepOnly k spec) = ([], Ok z) /\
    variantShapes k spec (initialPositionOf (IZoneSpec.initialPosition spec)) =
      Some (shape, geom) /\
    planck.shape (Zone.getFixtureDef z) = Some shape /\
    SimObject._mesh (Zone.base z) = Some mesh /\
    THREE.geometry mesh = geom.
Proof.
  intros H. unfold makeZone.
  destruct (IZoneSpec.rectangleZone spec) as [rect|] eqn:Hr.
  { exists rectangle. do 4 eexists. split; [unfold firstShape; now rewrite Hr|].
    rewrite !new_of_buildShape.
    erewrite !buildShape_rectangle by (simpl; eassumption).
    split; [reflexivity|]. split; [reflexivity|].
    split; [simpl; rewrite Hr; reflexivity|].
    split; [reflexivity|]. split; reflexivity. }
  destruct (IZoneSpec.ellipseZone spec) as [ell|] eqn:He.
  { exists ellipse. do 4 eexists. split; [unfold firstShape; now rewrite Hr, He|].
    rewrite !new_of_buildShape.
    erewrite !buildShape_ellipse by (simpl; eassumption || reflexivity).
    split; [reflexivity|]. split; [reflexivity|].
    split; [simpl; rewrite He; reflexivity|].
    split; [reflexivity|]. split; reflexivity. }
  exfalso. unfold shapeCount in H. rewrite Hr, He in H.
  destruct (IZoneSpec.polygonZone spec); simpl in H; lia.
Qed.

(** A zone that came out of the constructor is a [builtZone]: it has a
    mesh. *)
Lemma makeZone_Ok spec console z :
  makeZone guid spec = (console, Ok z) ->
  exists fixtureShape zoneMesh, z = builtZone guid spec fixtureShape zoneMesh.
Proof.
  unfold makeZone. rewrite new_of_buildShape.
  destruct (Zone.buildShape _ _ _) as [c [[fs [m|]]|e]]; intros [= _ <-]; eauto.
Qed.

(** A quarter turn about the x axis lays the shape's plane on the
    ground: the shape's [y] becomes the world's [z]. *)
Lemma applyEuler_quarter_turn_x cx cy :
  THREE.applyEuler (THREE.Euler.mk (PI / 2) 0 0) (THREE.Vector3.mk cx cy 0) =
  THREE.Vector3.mk cx 0 cy.
Proof.
  unfold THREE.applyEuler; simpl.
  rewrite cos_PI2, sin_PI2, cos_0, sin_0. f_equal; ring.
Qed.

(** C3. For an ellipse spec the fixture is the box of half-extents
    [(xRadius, zRadius)] on a body at the initial position, but the
    visual ellipse is drawn around the initial position inside a mesh
    that is itself moved to the initial position: on the ground its
    centre lies at twice the initial position, so it coincides with the
    body only when the initial position is the origin. *)
Theorem ellipse_zone_centre_shifted_twice spec ell :
  IZoneSpec.rectangleZone spec = None ->
  IZoneSpec.ellipseZone spec = Some ell ->
  let ip := initialPositionOf (IZoneSpec.initialPosition spec) in
  exists z mesh centre,
    makeZone guid spec = ([], Ok z) /\
    planck.shape (Zone.getFixtureDef z) =
      Some (planck.Box (IZoneSpec.xRadius ell) (IZoneSpec.zRadius ell)) /\
    planck.position (Zone.getBodySpecs z) =
      planck.Vec2.mk (Vector2d.x ip) (Vector2d.y ip) /\
    SimObject._mesh (Zone.base z) = Some mesh /\
    footprintWorldCentre mesh = Some centre /\
    groundPoint centre =
      planck.Vec2.mk (Vector2d.x ip + Vector2d.x ip) (Vector2d.y ip + Vector2d.y ip).
Proof.
  intros Hr He ip. unfold makeZone. rewrite new_of_buildShape.
  erewrite buildShape_ellipse by eassumption.
  do 3 eexists. split; [reflexivity|]. split; [reflexivity|].
  split; [reflexivity|]. split; [reflexivity|]. split; [reflexivity|].
  unfold THREE.localToWorld; simpl.
  rewrite applyEuler_quarter_turn_x. reflexivity.
Qed.

End ZoneConstruction.

(** ** Zone: mutators *)

Section ZoneMutators.

Lemma mutate_frame c z mesh :
  SimObject._mesh (Zone.base z) = Some mesh ->
  exists z', mutate c z = Ok z' /\ sameButMaterial z z'.
Proof.
  intros Hm. destruct c as [color|opacity]; simpl;
    unfold Zone.setColor, Zone.setOpacity; rewrite Hm;
    (eexists; split; [reflexivity|]);
    repeat (split; [reflexivity|]); exists mesh; eexists;
    repeat split; assumption || reflexivity.
Qed.

Lemma sameButMaterial_trans z1 z2 z3 :
  sameButMaterial z1 z2 -> sameButMaterial z2 z3 -> sameButMaterial z1 z3.
Proof.
  intros (A1 & A2 & A3 & A4 & A5 & m1 & m2 & A6 & A7 & A8 & A9 & A10)
         (B1 & B2 & B3 & B4 & B5 & m2' & m3 & B6 & B7 & B8 & B9 & B10).
  rewrite A7 in B6. injection B6 as <-.
  repeat (split; [congruence|]). exists m1, m3.
  repeat split; congruence.
Qed.

Lemma mutateAll_frame cs : forall z mesh,
  SimObject._mesh (Zone.base z) = Some mesh ->
  exists z', mutateAll cs z = Ok z' /\ sameButMaterial z z'.
Proof.
  induction cs as [|c cs IH]; intros z mesh Hm; simpl.
  - exists z. split; [reflexivity|].
    repeat (split; [reflexivity|]). exists mesh, mesh. repeat split; assumption.
  - destruct (mutate_frame c z mesh Hm) as (z1 & -> & H1).
    pose proof H1 as (_ & _ & _ & _ & _ & m & m1 & _ & Hm1 & _).
    destruct (IH z1 m1 Hm1) as (z' & -> & H2).
    exists z'. split; [reflexivity|]. eapply sameButMaterial_trans; eassumption.
Qed.

(** A zone repainted in the colour and opacity it has is the zone
    itself. *)
Lemma repainted_same z mesh :
  SimObject._mesh (Zone.base z) = Some mesh ->
  repainted mesh (THREE.color (THREE.material mesh))
    (THREE.opacity (THREE.material mesh)) z = z.
Proof.
  destruct z as [[g t ch m b] bs fs id]. simpl. intros ->.
  destruct mesh as [geom [k sd tr c o] pos rot]. reflexivity.
Qed.

(** A sequence of mutator calls on a zone with a mesh returns the zone
    repainted: the last colour set, the last opacity set, nothing else. *)
Lemma mutateAll_repaints cs : forall z mesh,
  SimObject._mesh (Zone.base z) = Some mesh ->
  mutateAll cs z =
  Ok (repainted mesh (finalColor cs (THREE.color (THREE.material mesh)))
        (finalOpacity cs (THREE.opacity (THREE.material mesh))) z).
Proof.
  induction cs as [|c cs IH]; intros z mesh Hm; simpl.
  - now rewrite repainted_same.
  - destruct c as [color|opacity]; simpl.
    + unfold Zone.setColor. rewrite Hm. erewrite IH by reflexivity. reflexivity.
    + unfold Zone.setOpacity. rewrite Hm. erewrite IH by reflexivity. reflexivity.
Qed.

(** C9. On a constructed zone every sequence of [setColor] and
    [setOpacity] calls runs to its end and returns the zone repainted:
    the material has the last colour set and the last opacity set (or
    those it had) and the kind, side and transparency it had; nothing else
    of the zone differs.  So [getBodySpecs()], [getFixtureDef()] (with the
    zone id and colour of its user data) and [getZoneId()] are as the
    constructor made them. *)
Theorem mutators_leave_physics_alone guid spec console z cs :
  makeZone guid spec = (console, Ok z) ->
  exists mesh z',
    SimObject._mesh (Zone.base z) = Some mesh /\
    mutateAll cs z = Ok z' /\
    z' = repainted mesh (finalColor cs (THREE.color (THREE.material mesh)))
           (finalOpacity cs (THREE.opacity (THREE.material mesh))) z /\
    sameButMaterial z z' /\
    Zone.getBodySpecs z' = Zone.getBodySpecs z /\
    Zone.getFixtureDef z' = Zone.getFixtureDef z /\
    planck.userData (Zone.getFixtureDef z') =
      Some (ZoneUserData.mk guid "zone"
              (ZoneUserData.mkZone (IZoneSpec.zoneId spec) (IZoneSpec.baseColor spec))) /\
    Zone.getZoneId z' = IZoneSpec.zoneId spec.
Proof.
  intros H. destruct (makeZone_Ok _ _ _ _ H) as (fs & m & ->).
  destruct (mutateAll_frame cs (builtZone guid spec fs m) _ eq_refl) as (z' & Hrun & Hsame).
  pose proof (mutateAll_repaints cs (builtZone guid spec fs m) _ eq_refl) as Hrep.
  rewrite Hrun in Hrep. injection Hrep as Hrep.
  eexists. exists z'. split; [reflexivity|]. split; [assumption|].
  split; [exact Hrep|]. split; [assumption|].
  rewrite Hrep. repeat split; reflexivity.
Qed.

End ZoneMutators.

(** ** The effect monad *)

Section Effects.
Context {S A : Type}.

(** A property of the store that every call of [f] keeps is kept by
    [forEach]. *)
Lemma forEach_preserves (I : S -> Prop) (f : A -> M S unit) xs :
  (forall x s, I s -> I (fst (f x s))) ->
  forall s, I s -> I (fst (forEach xs f s)).
Proof.
  intros Hf. induction xs as [|x xs IH]; intros s Hs; simpl; [assumption|].
  unfold bind. specialize (Hf x s Hs).
  destruct (f x s) as [s' [[]|e]]; simpl in *; [apply IH|]; assumption.
Qed.
End Effects.

(** ** Zone: update *)

Section ZoneUpdate.

Lemma Zone_update_follows ms z w body mesh :
  SimObject.body w (Zone.base z) = Some body ->
  SimObject._mesh (Zone.base z) = Some mesh ->
  Zone.update ms z w =
  (w, Ok (Zone.set_base
            (SimObject.set_mesh (Some (followCentre body mesh)) (Zone.base z)) z)).
Proof.
  intros Hb Hm. unfold Zone.update, bind, get, deref. rewrite Hb. simpl.
  rewrite Hm. reflexivity.
Qed.

End ZoneUpdate.

(** ** SimRobot *)

Section Robot.
Context {C : Collaborators}.

Lemma fold_addChild wheels : forall o,
  let o' := fold_left (fun this wheel => SimObject.addChild wheel this) wheels o in
  SimObject._mesh o' = SimObject._mesh o /\
  SimObject._body o' = SimObject._body o /\
  SimObject._children o' = SimObject._children o ++ wheels.
Proof.
  induction wheels as [|w ws IH]; intros o; simpl.
  - now rewrite app_nil_r.
  - destruct (IH (SimObject.addChild w o)) as (-> & -> & ->). simpl.
    now rewrite <- app_assoc.
Qed.

(** C4. When the drivetrain's constructor returns, so does the robot's,
    and the robot's body spec is dynamic, at the spec's initial position
    or at the origin, at angle 0, with linear damping 0.5, angular
    damping 0.3 and the bullet flag set; its fixture is the box of
    half-extents [(dimensions.x / 2, dimensions.z / 2)] with density 1,
    friction 0.3 and restitution 0.4. *)
Theorem robot_body_and_fixture guid spec s s' d :
  Drivetrain_new spec s = (s', Ok d) ->
  exists r,
    SimRobot.new guid spec s = (s', Ok r) /\
    SimRobot.getBodySpecs r =
      planck.mkBodyDef planck.dynamic
        (match IRobotSpec.initialPosition spec with
         | Some p => planck.Vec2.mk (Vector2d.x p) (Vector2d.y p)
         | None => planck.Vec2.mk 0 0
         end)
        0 (Some 0.5) (Some true) (Some 0.3) /\
    SimRobot.getFixtureDef r =
      planck.mkFixtureDef
        (Some (planck.Box (IRobotSpec.x (IRobotSpec.dimensions spec) / 2)
                          (IRobotSpec.z (IRobotSpec.dimensions spec) / 2)))
        (Some 1) false (Some 0.3) (Some 0.4) None /\
    SimObject._children (SimRobot.base r) = wheelObjects d.
Proof.
  intros H. unfold SimRobot.new, bind. rewrite H.
  match goal with
  | |- context [fold_left ?f ?ws ?o] =>
      destruct (fold_addChild ws o) as (Hm & _ & Hc)
  end.
  simpl in Hm, Hc. rewrite Hm. simpl.
  eexists. split; [reflexivity|]. split; [reflexivity|]. split; [reflexivity|].
  simpl. exact Hc.
Qed.

(** One wheel that is ready gets its joint; nothing else changes. *)
Lemma linkWheel_ready s r js chassis wheel b body :
  SimObject._body (SimRobot.base r) = Some chassis ->
  wheelReady s wheel b body ->
  SimRobot.linkWheel wheel (withJoints js s, r) =
  ((withJoints
      (planck.mkJoint (planck.mkJointDef true 0 0) chassis b
         (planck.getWorldCenter body) (planck.Vec2.mk 1 0) :: js) s, r), Ok tt).
Proof.
  intros Hc (wheelObj & Ho & Hb & Hbody).
  unfold SimRobot.linkWheel, bind, get, deref; simpl.
  rewrite Ho; simpl. rewrite Hb; simpl. rewrite Hbody; simpl. rewrite Hc; simpl.
  reflexivity.
Qed.

Lemma forEach_linkWheel s r chassis wheels : forall js,
  SimObject._body (SimRobot.base r) = Some chassis ->
  Forall (fun wheel => exists b body, wheelReady s wheel b body) wheels ->
  exists created,
    forEach wheels SimRobot.linkWheel (withJoints js s, r) =
      ((withJoints (created ++ js) s, r), Ok tt) /\
    Forall2 (fun wheel j => exists b body,
               wheelReady s wheel b body /\ isWheelLink chassis b body j)
      (rev wheels) created.
Proof.
  induction wheels as [|wheel wheels IH]; intros js Hc Hready.
  - exists []. split; [reflexivity|constructor].
  - inversion Hready as [|? ? (b & body & Hw) Hrest]; subst.
    destruct (IH (planck.mkJoint (planck.mkJointDef true 0 0) chassis b
                    (planck.getWorldCenter body) (planck.Vec2.mk 1 0) :: js)
                 Hc Hrest) as (created & Hrun & Hlinks).
    exists (created ++ [planck.mkJoint (planck.mkJointDef true 0 0) chassis b
                          (planck.getWorldCenter body) (planck.Vec2.mk 1 0)]).
    split.
    + simpl. unfold bind at 1.
      rewrite (linkWheel_ready s r js chassis wheel b body Hc Hw).
      rewrite Hrun, <- app_assoc. reflexivity.
    + simpl. apply Forall2_app; [assumption|].
      constructor; [|constructor].
      exists b, body. split; [assumption|]. repeat split.
Qed.

Lemma withJoints_same (s : Sim Wheel) : withJoints (planck.joints (world s)) s = s.
Proof. destruct s as [[bs js] os]. reflexivity. Qed.

(** C5. With the chassis body set and every wheel ready, one call of
    [configureFixtureLinks] returns, moves nothing, and puts in front of
    the world's joint list one joint per wheel object (the latest wheel
    first): between the chassis body and the wheel's body, limit enabled
    with lower and upper translation 0, anchored at the world centre the
    wheel's body has at the call, along the axis [(1, 0)]. *)
Theorem configureFixtureLinks_one_joint_per_wheel s r chassis :
  SimObject._body (SimRobot.base r) = Some chassis ->
  Forall (fun wheel => exists b body, wheelReady s wheel b body)
    (wheelObjects (SimRobot._drivetrain r)) ->
  exists created,
    SimRobot.configureFixtureLinks (s, r) =
      ((withJoints (created ++ planck.joints (world s)) s, r), Ok tt) /\
    length created = length (wheelObjects (SimRobot._drivetrain r)) /\
    Forall2 (fun wheel j => exists b body,
               wheelReady s wheel b body /\ isWheelLink chassis b body j)
      (rev (wheelObjects (SimRobot._drivetrain r))) created.
Proof.
  intros Hc Hready.
  destruct (forEach_linkWheel s r chassis _ (planck.joints (world s)) Hc Hready)
    as (created & Hrun & Hlinks).
  exists created. split; [|split; [|assumption]].
  - unfold SimRobot.configureFixtureLinks, bind, get; simpl.
    rewrite withJoints_same in Hrun. exact Hrun.
  - apply Forall2_length in Hlinks. rewrite length_rev in Hlinks. now symmetry.
Qed.

(** [updateMesh] with a body and a mesh: the mesh follows the body. *)
Lemma updateMesh_follows (st : SimRobot.St) body mesh :
  SimObject.body (world (fst st)) (SimRobot.base (snd st)) = Some body ->
  SimObject._mesh (SimRobot.base (snd st)) = Some mesh ->
  SimRobot.updateMesh st =
  ((fst st,
    SimRobot.set_base
      (SimObject.set_mesh (Some (followPose body mesh)) (SimRobot.base (snd st)))
      (snd st)), Ok tt).
Proof.
  intros Hb Hm. unfold SimRobot.updateMesh, bind, get, deref, modify; simpl.
  rewrite Hb; simpl. rewrite Hm; simpl. reflexivity.
Qed.

(** [updateMesh] returns only with a body and a mesh. *)
Lemma updateMesh_Ok (st st1 : SimRobot.St) :
  SimRobot.updateMesh st = (st1, Ok tt) ->
  exists body mesh,
    SimObject.body (world (fst st)) (SimRobot.base (snd st)) = Some body /\
    SimObject._mesh (SimRobot.base (snd st)) = Some mesh.
Proof.
  unfold SimRobot.updateMesh, bind, get, deref, throw; simpl.
  destruct (SimObject.body _ _) as [body|]; simpl; [|discriminate].
  destruct (SimObject._mesh _) as [mesh|]; simpl; [|discriminate].
  eauto.
Qed.

(** Equal poses: a reference that names a body in one store names a body
    with the same pose in the other. *)
Lemma poses_lookup (s1 s2 : Sim Wheel) b body :
  poses s2 = poses s1 ->
  planck.bodies (world s1) !! b = Some body ->
  exists body',
    planck.bodies (world s2) !! b = Some body' /\ planck.pose body' = planck.pose body.
Proof.
  unfold poses. intros Hp Hb.
  assert (H : map planck.pose (planck.bodies (world s2)) !! b = Some (planck.pose body)).
  { rewrite Hp. change map with (@fmap list _) in *.
    rewrite list_lookup_fmap, Hb. reflexivity. }
  change map with (@fmap list _) in H. rewrite list_lookup_fmap in H.
  destruct (planck.bodies (world s2) !! b) as [body'|]; [|discriminate].
  simpl in H. exists body'. split; [reflexivity|congruence].
Qed.

Context {P : PosePreserving C}.

(** The drivetrain and the children move no body and do not touch the
    robot's own base object. *)
Lemma updateCollaborators_frame ms (st : SimRobot.St) :
  poses (fst (fst (SimRobot.updateCollaborators ms st))) = poses (fst st) /\
  SimRobot.base (snd (fst (SimRobot.updateCollaborators ms st))) =
    SimRobot.base (snd st).
Proof.
  unfold SimRobot.updateCollaborators, bind, SimRobot.onDrivetrain, get.
  pose proof (Drivetrain_update_poses (fst st, SimRobot._drivetrain (snd st))) as Hd.
  destruct (Drivetrain_update _) as [[s' d'] [[]|e]]; simpl in Hd |- *;
    [|split; [assumption|reflexivity]].
  apply (forEach_preserves
           (fun st' : SimRobot.St =>
              poses (fst st') = poses (fst st) /\
              SimRobot.base (snd st') = SimRobot.base (snd st))).
  - intros child st' [Hp Hb]. unfold SimRobot.onSim.
    pose proof (child_update_poses ms child (fst st')) as Hc.
    destruct (child_update ms child (fst st')) as [s'' o]; simpl in *.
    split; [congruence|assumption].
  - split; [assumption|reflexivity].
Qed.

(** C6. [update] reads the body and writes the mesh.  A zone with a
    body and a mesh: the first call puts the mesh at the body's world
    centre and a second call, on the same world, returns the same
    object.  A robot: when a call has returned and, in a second call
    with no step of the world in between, the drivetrain and the
    children return, the second call returns too and leaves position and
    rotation of the mesh as the first call left them: the body's world
    centre and the opposite of its angle. *)
Theorem update_twice_same_transform :
  (forall ms1 ms2 z w body mesh,
     SimObject.body w (Zone.base z) = Some body ->
     SimObject._mesh (Zone.base z) = Some mesh ->
     exists z1,
       Zone.update ms1 z w = (w, Ok z1) /\
       Zone.update ms2 z1 w = (w, Ok z1) /\
       visualTransform (Zone.base z1) =
         Some (THREE.Vector3.mk (planck.Vec2.x (planck.getWorldCenter body))
                 (THREE.Vector3.y (THREE.position mesh))
                 (planck.Vec2.y (planck.getWorldCenter body)),
               THREE.rotation mesh)) /\
  (forall ms1 ms2 (st st1 st2' : SimRobot.St),
     SimRobot.update ms1 st = (st1, Ok tt) ->
     SimRobot.updateCollaborators ms2 st1 = (st2', Ok tt) ->
     exists st2 body y rx rz,
       SimRobot.update ms2 st1 = (st2, Ok tt) /\
       visualTransform (SimRobot.base (snd st2)) =
         visualTransform (SimRobot.base (snd st1)) /\
       SimObject.body (world (fst st1)) (SimRobot.base (snd st1)) = Some body /\
       visualTransform (SimRobot.base (snd st1)) =
         Some (THREE.Vector3.mk (planck.Vec2.x (planck.getWorldCenter body)) y
                 (planck.Vec2.y (planck.getWorldCenter body)),
               THREE.Euler.mk rx (- planck.getAngle body) rz)).
Proof.
  split.
  - intros ms1 ms2 z w body mesh Hb Hm.
    exists (Zone.set_base
              (SimObject.set_mesh (Some (followCentre body mesh)) (Zone.base z)) z).
    split; [apply Zone_update_follows; assumption|].
    split; [|reflexivity].
    apply (Zone_update_follows ms2
             (Zone.set_base
                (SimObject.set_mesh (Some (followCentre body mesh)) (Zone.base z)) z)
             w body (followCentre body mesh)); [exact Hb|reflexivity].
  - intros ms1 ms2 st st1 st2' H1 H2.
    unfold SimRobot.update, bind in H1.
    destruct (SimRobot.updateCollaborators ms1 st) as [st0 [[]|e]] eqn:Hc1;
      [|discriminate].
    destruct (updateMesh_Ok _ _ H1) as (body & mesh & Hb & Hm).
    rewrite (updateMesh_follows _ _ _ Hb Hm) in H1. injection H1 as <-.
    simpl in H2.
    destruct (updateCollaborators_frame ms2
                (fst st0,
                 SimRobot.set_base
                   (SimObject.set_mesh (Some (followPose body mesh))
                      (SimRobot.base (snd st0))) (snd st0))) as [Hp Hbase].
    rewrite H2 in Hp, Hbase. simpl in Hp, Hbase.
    unfold SimObject.body in Hb.
    destruct (SimObject._body (SimRobot.base (snd st0))) as [b|] eqn:Href;
      [|discriminate].
    simpl in Hb.
    destruct (poses_lookup _ _ _ _ Hp Hb) as (body' & Hb' & Hpose).
    injection Hpose as Hcentre Hangle.
    eexists. exists body. do 3 eexists.
    split; [|split; [|split]].
    + unfold SimRobot.update, bind. simpl. rewrite H2.
      apply (updateMesh_follows st2' body' (followPose body mesh)).
      * unfold SimObject.body. rewrite Hbase. simpl. rewrite Href. exact Hb'.
      * rewrite Hbase. reflexivity.
    + unfold visualTransform, followPose; simpl.
      rewrite Hcentre, Hangle. reflexivity.
    + simpl. unfold SimObject.body. simpl. rewrite Href. exact Hb.
    + reflexivity.
Qed.

End Robot.

(** ** The two-wheel drivetrain keeps the bodies where they are *)

Section TwoWheel.

Lemma wheelUpdate_world ms this s :
  world (fst (TwoWheelDrive.wheelUpdate ms this s)) = world s.
Proof.
  unfold TwoWheelDrive.wheelUpdate, bind, get, deref, throw, modify; simpl.
  destruct (objects s !! this) as [wheel|]; simpl; [|reflexivity].
  destruct (SimObject.body (world s) wheel) as [body|]; simpl; [|reflexivity].
  destruct (SimObject._mesh wheel) as [mesh|]; reflexivity.
Qed.

Lemma driveWheel_poses cw st :
  poses (fst (fst (TwoWheelDrive.driveWheel cw st))) = poses (fst st).
Proof.
  unfold TwoWheelDrive.driveWheel, bind, get, deref, throw, modify; simpl.
  destruct (objects (fst st) !! snd cw) as [wheel|]; simpl; [|reflexivity].
  destruct (SimObject._body wheel) as [ref|]; simpl; [|reflexivity].
  destruct (planck.bodies (world (fst st)) !! ref) as [body|] eqn:Hb; simpl;
    [|reflexivity].
  unfold poses; simpl. change map with (@fmap list _).
  rewrite list_fmap_insert. apply list_insert_id.
  rewrite list_lookup_fmap, Hb. reflexivity.
Qed.

Lemma TwoWheelDrive_pose_preserving : PosePreserving TwoWheelDrive.collaborators.
Proof.
  split; simpl.
  - intros ms child s. unfold poses. now rewrite wheelUpdate_world.
  - intros st. unfold TwoWheelDrive.update, bind, get.
    apply (forEach_preserves
             (fun st' : Sim SimObject.t * TwoWheelDrive.t =>
                poses (fst st') = poses (fst st))); [|reflexivity].
    intros cw st' H. now rewrite driveWheel_poses.
Qed.

End TwoWheel.

(** ** The theorems at concrete inputs *)

Lemma no_shape_warns_then_throws_witness :
  shapeCount noShapeSpec = 0%nat /\
  makeZone "zone-1" noShapeSpec =
    (["Some type of zone must be specified"%string], Throw (TypeError "zoneMesh")).
Proof.
  split; [reflexivity|].
  apply (no_shape_warns_then_throws "zone-1" noShapeSpec). reflexivity.
Defined.

Lemma polygonSpec_valid : validZoneSpec polygonSpec.
Proof.
  split; [reflexivity|]. intros poly H. injection H as <-. simpl. lia.
Defined.

Lemma valid_zone_is_static_sensor_witness :
  validZoneSpec polygonSpec /\
  exists z,
    makeZone "zone-1" polygonSpec = ([], Ok z) /\
    planck.isSensor (Zone.getFixtureDef z) = true /\
    planck.type (Zone.getBodySpecs z) = planck.static.
Proof.
  split; [exact polygonSpec_valid|].
  apply (valid_zone_is_static_sensor "zone-1" polygonSpec). exact polygonSpec_valid.
Defined.

Lemma rectangle_zone_shapes_witness :
  exists z mesh,
    makeZone "zone-1" rectangleSpec = ([], Ok z) /\
    planck.shape (Zone.getFixtureDef z) = Some (planck.Box 2 1) /\
    SimObject._mesh (Zone.base z) = Some mesh /\
    THREE.geometry mesh = THREE.PlaneGeometry 4 2 /\
    THREE.rotation mesh = THREE.Euler.mk (PI / 2) 0 0.
Proof.
  destruct (rectangle_zone_shapes "zone-1" rectangleSpec (IZoneSpec.mkRectangle 4 2) eq_refl)
    as (z & mesh & Hz & Hshape & Hmesh & Hgeom & Hrot).
  exists z, mesh. split; [exact Hz|]. split; [|auto].
  rewrite Hshape. cbn [IZoneSpec.xLength IZoneSpec.zLength].
  do 2 f_equal; lra.
Defined.

Lemma polygon_zone_points_witness :
  exists z mesh shapePoints fixturePoints,
    makeZone "zone-1" polygonSpec = ([], Ok z) /\
    SimObject._mesh (Zone.base z) = Some mesh /\
    THREE.geometry mesh = THREE.ShapeBufferGeometry (THREE.ShapeOfPoints shapePoints) /\
    planck.shape (Zone.getFixtureDef z) = Some (planck.Polygon fixturePoints) /\
    length shapePoints = 3%nat /\
    length fixturePoints = 3%nat /\
    shapePoints !! 1%nat = Some (THREE.Vector2.mk 1 0) /\
    fixturePoints !! 1%nat = Some (planck.Vec2.mk 1 0).
Proof.
  destruct (polygon_zone_points "zone-1" polygonSpec (IZoneSpec.mkPolygon triangle)
              polygonSpec_valid eq_refl)
    as (z & mesh & sp & fp & Hz & Hmesh & Hgeom & Hshape & Hls & Hlf & Hat & _).
  exists z, mesh, sp, fp.
  destruct (Hat 1%nat (Vector2d.mk 1 0) eq_refl) as [Hs Hf].
  repeat split; assumption.
Defined.

Lemma several_shapes_first_wins_witness :
  (2 <= shapeCount allShapesSpec)%nat /\
  exists z mesh,
    makeZone "zone-1" allShapesSpec = ([], Ok z) /\
    makeZone "zone-1" (keepOnly rectangle allShapesSpec) = ([], Ok z) /\
    planck.shape (Zone.getFixtureDef z) = Some (planck.Box (4 / 2) (2 / 2)) /\
    SimObject._mesh (Zone.base z) = Some mesh /\
    THREE.geometry mesh = THREE.PlaneGeometry 4 2.
Proof.
  assert (H : (2 <= shapeCount allShapesSpec)%nat) by (unfold shapeCount, allShapesSpec; simpl; lia).
  split; [exact H|].
  destruct (several_shapes_first_wins "zone-1" allShapesSpec H)
    as (k & z & shape & geom & mesh & Hk & Hz & Hz' & Hv & Hs & Hm & Hg).
  injection Hk as <-. injection Hv as <- <-.
  exists z, mesh. repeat (split; [assumption|]). exact Hg.
Defined.

Lemma ellipse_zone_centre_shifted_twice_witness :
  exists z mesh centre,
    makeZone "zone-1" ellipseSpec = ([], Ok z) /\
    planck.shape (Zone.getFixtureDef z) = Some (planck.Box 1 1) /\
    planck.position (Zone.getBodySpecs z) = planck.Vec2.mk 1 0 /\
    SimObject._mesh (Zone.base z) = Some mesh /\
    footprintWorldCentre mesh = Some centre /\
    groundPoint centre = planck.Vec2.mk 2 0 /\
    groundPoint centre <> planck.position (Zone.getBodySpecs z).
Proof.
  destruct (ellipse_zone_centre_shifted_twice "zone-1" ellipseSpec
              (IZoneSpec.mkEllipse 1 1) eq_refl eq_refl)
    as (z & mesh & centre & Hz & Hshape & Hpos & Hmesh & Hcentre & Hground).
  exists z, mesh, centre.
  cbn [ellipseSpec IZoneSpec.initialPosition initialPositionOf Vector2d.x Vector2d.y]
    in Hpos, Hground.
  assert (Hg : groundPoint centre = planck.Vec2.mk 2 0).
  { rewrite Hground. f_equal; lra. }
  repeat (split; [assumption|]).
  rewrite Hg, Hpos. intros H. injection H as H. lra.
Defined.

Lemma mutators_leave_physics_alone_witness :
  exists z z' mesh',
    makeZone "zone-1" polygonSpec = ([], Ok z) /\
    mutateAll exampleMutators z = Ok z' /\
    Zone.getBodySpecs z' = Zone.getBodySpecs z /\
    Zone.getFixtureDef z' = Zone.getFixtureDef z /\
    Zone.getZoneId z' = Zone.getZoneId z /\
    planck.userData (Zone.getFixtureDef z') =
      Some (ZoneUserData.mk "zone-1" "zone" (ZoneUserData.mkZone "goal" (Some 255))) /\
    SimObject._mesh (Zone.base z') = Some mesh' /\
    THREE.material mesh' =
      THREE.mkMaterial THREE.MeshBasicMaterial THREE.DoubleSide true 255 0.25.
Proof.
  eexists.
  destruct (mutators_leave_physics_alone "zone-1" polygonSpec [] _ exampleMutators eq_refl)
    as (mesh & z' & Hm & Hrun & Hrep & (_ & _ & Hid & _) & Hb & Hf & Hud & _).
  injection Hm as <-.
  exists z'. eexists. split; [reflexivity|]. split; [exact Hrun|].
  split; [exact Hb|]. split; [exact Hf|]. split; [exact Hid|]. split; [exact Hud|].
  rewrite Hrep. split; reflexivity.
Defined.

Lemma robot_body_and_fixture_witness :
  exists s' r,
    SimRobot.new (C := TwoWheelDrive.collaborators) "robot-1" exampleRobotSpec emptySim =
      (s', Ok r) /\
    planck.type (SimRobot.getBodySpecs r) = planck.dynamic /\
    planck.position (SimRobot.getBodySpecs r) = planck.Vec2.mk 0 0 /\
    planck.angle (SimRobot.getBodySpecs r) = 0 /\
    planck.linearDamping (SimRobot.getBodySpecs r) = Some 0.5 /\
    planck.angularDamping (SimRobot.getBodySpecs r) = Some 0.3 /\
    planck.bullet (SimRobot.getBodySpecs r) = Some true /\
    planck.shape (SimRobot.getFixtureDef r) = Some (planck.Box 1 1.5) /\
    planck.density (SimRobot.getFixtureDef r) = Some 1 /\
    planck.friction (SimRobot.getFixtureDef r) = Some 0.3 /\
    planck.restitution (SimRobot.getFixtureDef r) = Some 0.4.
Proof.
  destruct (robot_body_and_fixture (C := TwoWheelDrive.collaborators)
              "robot-1" exampleRobotSpec emptySim _ _ eq_refl)
    as (r & Hnew & Hbody & Hfix & _).
  eexists. exists r. split; [exact Hnew|].
  rewrite Hbody, Hfix. cbn [exampleRobotSpec IRobotSpec.initialPosition
    IRobotSpec.dimensions IRobotSpec.x IRobotSpec.z planck.type planck.position
    planck.angle planck.linearDamping planck.angularDamping planck.bullet
    planck.shape planck.density planck.friction planck.restitution].
  repeat (split; [reflexivity|]).
  split; [|repeat split]. do 2 f_equal; lra.
Defined.

Lemma configureFixtureLinks_one_joint_per_wheel_witness :
  exists st,
    exampleScene = Some st /\
    exists st',
    SimRobot.configureFixtureLinks (C := TwoWheelDrive.collaborators) st = (st', Ok tt) /\
    length (planck.joints (world (fst st'))) = 2%nat /\
    Forall (fun j =>
              planck.enableLimit (planck.def j) = true /\
              planck.lowerTranslation (planck.def j) = 0 /\
              planck.upperTranslation (planck.def j) = 0 /\
              planck.axis j = planck.Vec2.mk 1 0)
      (planck.joints (world (fst st'))) /\
    planck.anchor <$> planck.joints (world (fst st')) =
      [planck.Vec2.mk 6 7; planck.Vec2.mk 4 7].
Proof.
  eexists. split; [reflexivity|]. unfold attachBodies.
  match goal with
  | |- exists _, SimRobot.configureFixtureLinks (?s, ?r) = _ /\ _ =>
      destruct (configureFixtureLinks_one_joint_per_wheel
                  (C := TwoWheelDrive.collaborators) s r 0%nat eq_refl)
        as (created & Hrun & Hlen & Hlinks)
  end.
  - repeat constructor.
    + exists 1%nat. eexists. eexists. repeat split; reflexivity.
    + exists 2%nat. eexists. eexists. repeat split; reflexivity.
  - eexists. split; [exact Hrun|].
    cbn [fst world withJoints set_world planck.joints]. rewrite app_nil_r.
    split; [exact Hlen|].
    inversion Hlinks as [|w1 j1 ws1 js1 H1 Hrest1]; subst.
    inversion Hrest1 as [|w2 j2 ws2 js2 H2 Hrest2]; subst.
    inversion Hrest2; subst.
    destruct H1 as (b1 & body1 & (o1 & Ho1 & Hb1 & Hbody1) & L1).
    destruct H2 as (b2 & body2 & (o2 & Ho2 & Hb2 & Hbody2) & L2).
    injection Ho1 as <-. injection Hb1 as <-. injection Hbody1 as <-.
    injection Ho2 as <-. injection Hb2 as <-. injection Hbody2 as <-.
    destruct L1 as (A1 & A2 & A3 & _ & _ & A4 & A5).
    destruct L2 as (B1 & B2 & B3 & _ & _ & B4 & B5).
    split.
    + repeat constructor; assumption.
    + simpl. rewrite A4, B4. reflexivity.
Defined.

Lemma update_twice_same_transform_witness :
  (exists z,
     makeZone "zone-1" rectangleSpec = ([], Ok z) /\
     exists z1,
       Zone.update 16 (Zone.set_base (SimObject.setBody 0%nat (Zone.base z)) z)
         exampleWorld = (exampleWorld, Ok z1) /\
       Zone.update 16 z1 exampleWorld = (exampleWorld, Ok z1) /\
       visualTransform (Zone.base z1) =
         Some (THREE.Vector3.mk 5 0 7, THREE.Euler.mk (PI / 2) 0 0)) /\
  (exists st,
     exampleScene = Some st /\
     exists st1,
       SimRobot.update (C := TwoWheelDrive.collaborators) 16 st = (st1, Ok tt) /\
       exists st2,
         SimRobot.update (C := TwoWheelDrive.collaborators) 16 st1 = (st2, Ok tt) /\
         visualTransform (SimRobot.base (snd st2)) =
           visualTransform (SimRobot.base (snd st1))).
Proof.
  destruct (update_twice_same_transform (C := TwoWheelDrive.collaborators)
              (P := TwoWheelDrive_pose_preserving)) as [HZ HR].
  split.
  - eexists. split; [reflexivity|].
    match goal with
    | |- exists z1, Zone.update _ ?z ?w = _ /\ _ =>
        edestruct (HZ 16 16 z w) as (z1 & H1 & H2 & H3); [reflexivity|reflexivity|]
    end.
    exists z1. split; [exact H1|]. split; [exact H2|]. exact H3.
  - eexists. split; [reflexivity|]. unfold attachBodies.
    match goal with
    | |- exists st1, SimRobot.update _ ?st = _ /\ _ => set (st0 := st)
    end.
    assert (H1 : exists st1,
               SimRobot.update (C := TwoWheelDrive.collaborators) 16 st0 = (st1, Ok tt)
               /\ exists st2',
                 SimRobot.updateCollaborators (C := TwoWheelDrive.collaborators) 16 st1 =
                   (st2', Ok tt)).
    { eexists. split; [lazy; reflexivity|]. eexists. lazy. reflexivity. }
    destruct H1 as (st1 & H1 & st2' & Hc).
    exists st1. split; [exact H1|].
    destruct (HR 16 16 st0 st1 st2' H1 Hc)
      as (st2 & body & y & rx & rz & H2 & Hsame & _).
    exists st2. split; assumption.
Defined.

(** ** Zone: further properties *)

Section ZoneFurther.
Variable guid : string.

(** X1. The three ways the constructor ends.  It returns a zone, with an
    empty console, exactly when the spec carries a shape variant and the
    variant it reaches is not a polygon without points.  With no variant
    it writes the one warning and ends in the [TypeError] of the
    [undefined] mesh.  When the variant it reaches is a polygon without
    points it writes nothing and ends in the [TypeError] that
    [new THREE.Shape] raises on the empty list. *)
Theorem makeZone_outcomes spec :
  match makeZone guid spec with
  | (console, Ok z) =>
      console = [] /\ shapeCount spec <> 0%nat /\ ~ emptyPolygonFirst spec
  | (console, Throw e) =>
      (console = [Zone.warning] /\ e = TypeError "zoneMesh" /\ shapeCount spec = 0%nat) \/
      (console = [] /\ e = TypeError "points[0]" /\ emptyPolygonFirst spec)
  end.
Proof.
  unfold makeZone. rewrite new_of_buildShape.
  destruct (IZoneSpec.rectangleZone spec) as [rect|] eqn:Hr.
  { erewrite buildShape_rectangle by eassumption.
    split; [reflexivity|]. split.
    - unfold shapeCount. rewrite Hr. discriminate.
    - intros (Hr' & _). congruence. }
  destruct (IZoneSpec.ellipseZone spec) as [ell|] eqn:He.
  { erewrite buildShape_ellipse by eassumption.
    split; [reflexivity|]. split.
    - unfold shapeCount. rewrite Hr, He. discriminate.
    - intros (_ & He' & _). congruence. }
  destruct (IZoneSpec.polygonZone spec) as [poly|] eqn:Hp.
  - destruct (IZoneSpec.points poly) as [|p rest] eqn:Hpts.
    + erewrite buildShape_empty_polygon by eassumption.
      right. split; [reflexivity|]. split; [reflexivity|].
      split; [assumption|]. split; [assumption|]. exists poly. split; assumption.
    + erewrite buildShape_polygon by (eassumption || (rewrite Hpts; discriminate)).
      split; [reflexivity|]. split.
      * unfold shapeCount. rewrite Hr, He, Hp. discriminate.
      * intros (_ & _ & poly' & Hp' & Hnil). congruence.
  - rewrite buildShape_none by (unfold shapeCount; now rewrite Hr, He, Hp).
    left. repeat split. unfold shapeCount. now rewrite Hr, He, Hp.
Qed.

(** The turn of a mesh maps the origin of its shape to the origin. *)
Lemma applyEuler_origin e :
  THREE.applyEuler e (THREE.Vector3.mk 0 0 0) = THREE.Vector3.mk 0 0 0.
Proof. unfold THREE.applyEuler; simpl. f_equal; ring. Qed.

(** X2. For a rectangle spec the centre of the visual plane lies, on the
    ground, at the position of the body, whatever the initial position. *)
Theorem rectangle_zone_centre_on_body spec rect :
  IZoneSpec.rectangleZone spec = Some rect ->
  exists z mesh centre,
    makeZone guid spec = ([], Ok z) /\
    SimObject._mesh (Zone.base z) = Some mesh /\
    footprintWorldCentre mesh = Some centre /\
    groundPoint centre = planck.position (Zone.getBodySpecs z).
Proof.
  intros Hr. unfold makeZone. rewrite new_of_buildShape.
  erewrite buildShape_rectangle by eassumption.
  do 3 eexists. split; [reflexivity|]. split; [reflexivity|]. split; [reflexivity|].
  unfold THREE.localToWorld. rewrite applyEuler_origin.
  unfold groundPoint; simpl. f_equal; ring.
Qed.

(** X3. For a valid polygon spec every point of the visual shape is shown
    on the ground where the world puts the fixture vertex of the same
    index: at the initial position plus the point. *)
Theorem polygon_zone_vertices_on_fixture spec poly :
  validZoneSpec spec ->
  IZoneSpec.polygonZone spec = Some poly ->
  exists z mesh shapePoints fixturePoints,
    makeZone guid spec = ([], Ok z) /\
    SimObject._mesh (Zone.base z) = Some mesh /\
    THREE.geometry mesh = THREE.ShapeBufferGeometry (THREE.ShapeOfPoints shapePoints) /\
    planck.shape (Zone.getFixtureDef z) = Some (planck.Polygon fixturePoints) /\
    Forall2 (fun sv fv => shownAt mesh sv = bodyPoint (Zone.getBodySpecs z) fv)
      shapePoints fixturePoints.
Proof.
  intros Hvalid Hp. pose proof Hvalid as [Hone _].
  pose proof (valid_polygon_nonempty spec poly Hvalid Hp) as Hne.
  assert (Hr : IZoneSpec.rectangleZone spec = None).
  { unfold shapeCount in Hone. rewrite Hp in Hone.
    destruct (IZoneSpec.rectangleZone spec); [|reflexivity].
    destruct (IZoneSpec.ellipseZone spec); discriminate. }
  assert (He : IZoneSpec.ellipseZone spec = None).
  { unfold shapeCount in Hone. rewrite Hp, Hr in Hone.
    destruct (IZoneSpec.ellipseZone spec); [discriminate|reflexivity]. }
  unfold makeZone. rewrite new_of_buildShape.
  erewrite buildShape_polygon by eassumption.
  do 4 eexists. split; [reflexivity|]. split; [reflexivity|].
  split; [reflexivity|]. split; [reflexivity|].
  clear Hne. induction (IZoneSpec.points poly) as [|p rest IH]; simpl; constructor;
    [|exact IH].
  unfold shownAt, THREE.localToWorld, bodyPoint; simpl.
  rewrite applyEuler_quarter_turn_x, cos_0, sin_0.
  unfold groundPoint; simpl. f_equal; ring.
Qed.

(** X4. A zone fresh from its constructor has no body: until the scene
    sets one, [update] throws and leaves zone and world as they are. *)
Theorem fresh_zone_update_throws spec console z ms w :
  makeZone guid spec = (console, Ok z) ->
  SimObject._body (Zone.base z) = None /\
  Zone.update ms z w = (w, Throw (TypeError "this._body")).
Proof.
  intros H. destruct (makeZone_Ok _ _ _ _ H) as (fs & m & ->).
  split; reflexivity.
Qed.

(** X5. While the zone's body rests where the body spec puts it, [update]
    changes nothing: the constructor has already placed the mesh there. *)
Theorem zone_update_at_rest spec console z ms w b body :
  makeZone guid spec = (console, Ok z) ->
  planck.bodies w !! b = Some body ->
  planck.getWorldCenter body = planck.position (Zone.getBodySpecs z) ->
  Zone.update ms (Zone_setBody b z) w = (w, Ok (Zone_setBody b z)).
Proof.
  intros H Hb Hrest. destruct (makeZone_Ok _ _ _ _ H) as (fs & m & ->).
  erewrite Zone_update_follows; [|simpl; exact Hb|reflexivity].
  unfold followCentre. rewrite Hrest. reflexivity.
Qed.

End ZoneFurther.


Section ZoneLife.

(** Every mesh the chain of tests builds is a new mesh: at the origin,
    not rotated. *)
Lemma buildShape_newMesh spec ip mat console fixtureShape mesh :
  Zone.buildShape spec ip mat = (console, Ok (fixtureShape, Some mesh)) ->
  exists geom, mesh = THREE.newMesh geom mat.
Proof.
  unfold Zone.buildShape.
  destruct (IZoneSpec.rectangleZone spec) as [rect|].
  { intros [= _ _ <-]. eauto. }
  destruct (IZoneSpec.ellipseZone spec) as [ell|].
  { intros [= _ _ <-]. eauto. }
  destruct (IZoneSpec.polygonZone spec) as [poly|]; [|discriminate].
  destruct (Zone.pushPoints _ _ _) as [sp fp].
  destruct (THREE.newShape sp) as [shape|e]; [|discriminate].
  intros [= _ _ <-]. eauto.
Qed.

Lemma makeZone_Ok_newMesh guid spec console z :
  makeZone guid spec = (console, Ok z) ->
  exists fixtureShape geom,
    z = builtZone guid spec fixtureShape (THREE.newMesh geom (zoneMaterialOf spec)).
Proof.
  unfold makeZone. rewrite new_of_buildShape.
  destruct (Zone.buildShape _ _ _) as [c [[fs [m|]]|e]] eqn:Hb;
    [|discriminate|discriminate].
  destruct (buildShape_newMesh _ _ _ _ _ _ Hb) as [geom ->].
  intros [= _ <-]. eauto.
Qed.

Lemma sameFootprint_refl z mesh :
  SimObject._mesh (Zone.base z) = Some mesh -> sameFootprint z z.
Proof.
  intros Hm. repeat (split; [reflexivity|]). exists mesh, mesh.
  repeat split; assumption || reflexivity.
Qed.

Lemma sameFootprint_trans z1 z2 z3 :
  sameFootprint z1 z2 -> sameFootprint z2 z3 -> sameFootprint z1 z3.
Proof.
  intros (A1 & A2 & A3 & A4 & m1 & m2 & A5 & A6 & A7 & A8 & A9)
         (B1 & B2 & B3 & B4 & m2' & m3 & B5 & B6 & B7 & B8 & B9).
  rewrite A6 in B5. injection B5 as <-.
  repeat (split; [congruence|]). exists m1, m3.
  repeat split; congruence.
Qed.

Lemma zoneStep_footprint op z mesh z' :
  SimObject._mesh (Zone.base z) = Some mesh ->
  zoneStep op z = Ok z' ->
  sameFootprint z z'.
Proof.
  intros Hm Hstep. destruct op as [b|ms w|[color|opacity]]; simpl in Hstep.
  - injection Hstep as <-. repeat (split; [reflexivity|]).
    exists mesh, mesh. repeat split; assumption || reflexivity.
  - unfold Zone.update, bind, get, deref, throw, ret in Hstep.
    destruct (SimObject.body w (Zone.base z)) as [body|]; [|discriminate].
    rewrite Hm in Hstep. injection Hstep as <-.
    repeat (split; [reflexivity|]). exists mesh. eexists.
    repeat split; assumption || reflexivity.
  - unfold Zone.setColor in Hstep. rewrite Hm in Hstep. injection Hstep as <-.
    repeat (split; [reflexivity|]). exists mesh. eexists.
    repeat split; assumption || reflexivity.
  - unfold Zone.setOpacity in Hstep. rewrite Hm in Hstep. injection Hstep as <-.
    repeat (split; [reflexivity|]). exists mesh. eexists.
    repeat split; assumption || reflexivity.
Qed.

Lemma zoneRun_footprint ops : forall z mesh z',
  SimObject._mesh (Zone.base z) = Some mesh ->
  zoneRun ops z = Ok z' ->
  sameFootprint z z'.
Proof.
  induction ops as [|op ops IH]; intros z mesh z' Hm Hrun; simpl in Hrun.
  - injection Hrun as <-. eapply sameFootprint_refl; eassumption.
  - destruct (zoneStep op z) as [z1|e] eqn:Hstep; [|discriminate].
    simpl in Hrun.
    pose proof (zoneStep_footprint _ _ _ _ Hm Hstep) as H1.
    pose proof H1 as (_ & _ & _ & _ & m & m1 & _ & Hm1 & _).
    eapply sameFootprint_trans; [exact H1|]. eapply IH; eassumption.
Qed.

(** X6. Whatever happens to a constructed zone (the scene sets a body,
    frames update it against any worlds, callers recolour it), as long as
    every call returns the zone stays flat on the ground, with the
    geometry it was built with, and its body spec, fixture def and zone id
    stay the constructor's: [update] never feeds a moved body back into
    them. *)
Theorem zone_life_keeps_footprint guid spec console z ops z' :
  makeZone guid spec = (console, Ok z) ->
  zoneRun ops z = Ok z' ->
  flatOnGround z' /\ sameFootprint z z'.
Proof.
  intros H Hrun. destruct (makeZone_Ok_newMesh _ _ _ _ H) as (fs & geom & ->).
  assert (Hsame : sameFootprint
            (builtZone guid spec fs (THREE.newMesh geom (zoneMaterialOf spec))) z').
  { eapply zoneRun_footprint; [reflexivity|exact Hrun]. }
  split; [|exact Hsame].
  destruct Hsame as (_ & _ & _ & _ & m0 & m' & Hm0 & Hm' & _ & Hy & Hrot).
  injection Hm0 as <-. simpl in Hy, Hrot.
  exists m'. split; [exact Hm'|]. split; [exact Hy|exact Hrot].
Qed.

(** X7. The mutators compose as assignments do: of two [setColor] calls,
    or two [setOpacity] calls, the later one decides, and a [setColor] and
    a [setOpacity] give the same zone in either order (or throw alike when
    the object has no mesh). *)
Theorem mutators_compose z c1 c2 o1 o2 :
  andThen (Zone.setColor c1 z) (Zone.setColor c2) = Zone.setColor c2 z /\
  andThen (Zone.setOpacity o1 z) (Zone.setOpacity o2) = Zone.setOpacity o2 z /\
  andThen (Zone.setColor c1 z) (Zone.setOpacity o1) =
    andThen (Zone.setOpacity o1 z) (Zone.setColor c1).
Proof.
  unfold Zone.setColor, Zone.setOpacity.
  destruct (SimObject._mesh (Zone.base z)) as [mesh|]; simpl;
    repeat split; reflexivity.
Qed.

End ZoneLife.

Section ZoneTracking.
Variable guid : string.

(** X15. Once its body is set, a rectangle zone is drawn where its body
    is: after [update] the centre of the plane lies, on the ground, at the
    body's world centre, wherever the body is. *)
Theorem rectangle_zone_tracks_body spec rect console z ms w b body :
  IZoneSpec.rectangleZone spec = Some rect ->
  makeZone guid spec = (console, Ok z) ->
  planck.bodies w !! b = Some body ->
  exists z1 mesh centre,
    Zone.update ms (Zone_setBody b z) w = (w, Ok z1) /\
    SimObject._mesh (Zone.base z1) = Some mesh /\
    footprintWorldCentre mesh = Some centre /\
    groundPoint centre = planck.getWorldCenter body.
Proof.
  intros Hr H Hb. unfold makeZone in H. rewrite new_of_buildShape in H.
  erewrite buildShape_rectangle in H by eassumption. injection H as _ <-.
  do 3 eexists. split.
  { apply Zone_update_follows; [simpl; exact Hb|reflexivity]. }
  split; [reflexivity|]. split; [reflexivity|].
  unfold THREE.localToWorld. rewrite applyEuler_origin.
  destruct body as [[cx cy] angle velocity force]. unfold groundPoint; simpl.
  f_equal; lra.
Qed.

(** X16. An ellipse zone is drawn beside its body: after [update] the
    centre of the ellipse lies, on the ground, at the body's world centre
    plus the spec's initial position, which the shape still carries. *)
Theorem ellipse_zone_stays_offset spec ell console z ms w b body :
  IZoneSpec.rectangleZone spec = None ->
  IZoneSpec.ellipseZone spec = Some ell ->
  makeZone guid spec = (console, Ok z) ->
  planck.bodies w !! b = Some body ->
  let ip := initialPositionOf (IZoneSpec.initialPosition spec) in
  exists z1 mesh centre,
    Zone.update ms (Zone_setBody b z) w = (w, Ok z1) /\
    SimObject._mesh (Zone.base z1) = Some mesh /\
    footprintWorldCentre mesh = Some centre /\
    groundPoint centre =
      planck.Vec2.mk (planck.Vec2.x (planck.getWorldCenter body) + Vector2d.x ip)
                     (planck.Vec2.y (planck.getWorldCenter body) + Vector2d.y ip).
Proof.
  intros Hr He H Hb ip. unfold makeZone in H. rewrite new_of_buildShape in H.
  erewrite buildShape_ellipse in H by eassumption. injection H as _ <-.
  do 3 eexists. split.
  { apply Zone_update_follows; [simpl; exact Hb|reflexivity]. }
  split; [reflexivity|]. split; [reflexivity|].
  unfold THREE.localToWorld; simpl. rewrite applyEuler_quarter_turn_x.
  unfold groundPoint, ip; simpl. apply f_equal2; ring.
Qed.

End ZoneTracking.

(** ** SimRobot: further properties *)

Section EffectsFurther.
Context {S A : Type}.

(** [forEach] over a list in two parts: the second part runs only when
    the first has returned. *)
Lemma forEach_app (f : A -> M S unit) xs ys s :
  forEach (xs ++ ys) f s =
  match forEach xs f s with
  | (s', Ok _) => forEach ys f s'
  | (s', Throw e) => (s', Throw e)
  end.
Proof.
  revert s. induction xs as [|x xs IH]; intros s; simpl; [reflexivity|].
  unfold bind. destruct (f x s) as [s1 [[]|e]]; [apply IH|reflexivity].
Qed.

End EffectsFurther.

Section RobotFurther.
Context {C : Collaborators}.

(** A turn by no angle moves no point. *)
Lemma applyEuler_zero v : THREE.applyEuler THREE.Euler.zero v = v.
Proof.
  destruct v as [vx vy vz]. unfold THREE.applyEuler; simpl.
  rewrite cos_0, sin_0. f_equal; ring.
Qed.

(** The robot the constructor returns, once the drivetrain's has. *)
Lemma new_after_drivetrain guid spec s s' d :
  Drivetrain_new spec s = (s', Ok d) ->
  exists r mesh,
    SimRobot.new guid spec s = (s', Ok r) /\
    SimRobot._drivetrain r = d /\
    SimObject._children (SimRobot.base r) = wheelObjects d /\
    SimObject._body (SimRobot.base r) = None /\
    SimObject._mesh (SimRobot.base r) = Some mesh /\
    THREE.geometry mesh =
      THREE.BoxGeometry (IRobotSpec.x (IRobotSpec.dimensions spec))
        (IRobotSpec.y (IRobotSpec.dimensions spec))
        (IRobotSpec.z (IRobotSpec.dimensions spec)) /\
    THREE.color (THREE.material mesh) =
      default ROBOT_DEFAULT_COLOR (IRobotSpec.baseColor spec) /\
    THREE.position mesh = THREE.Vector3.mk 0 (- yOffset d) 0 /\
    THREE.rotation mesh = THREE.Euler.zero.
Proof.
  intros H. unfold SimRobot.new, bind. rewrite H.
  match goal with
  | |- context [fold_left ?f ?ws ?o] =>
      destruct (fold_addChild ws o) as (Hm & Hb & Hc)
  end.
  simpl in Hm, Hb, Hc. rewrite Hm. simpl.
  do 2 eexists. split; [reflexivity|]. split; [reflexivity|].
  split; [exact Hc|]. split; [exact Hb|]. split; [reflexivity|].
  split; [reflexivity|]. split; [reflexivity|]. split; [|reflexivity].
  unfold THREE.translateY, THREE.newMesh; simpl.
  change (THREE.Euler.mk 0 0 0) with THREE.Euler.zero.
  rewrite applyEuler_zero.
  unfold THREE.Vector3.add, THREE.Vector3.multiplyScalar, THREE.Vector3.zero; simpl.
  f_equal; ring.
Qed.

(** X8. The robot's constructor returns exactly when the drivetrain's
    does, on the store the drivetrain's constructor leaves.  The robot
    then has no body yet, the drivetrain's wheel objects as its children
    in their order, and a box mesh of the spec's dimensions, in the spec's
    colour or the default green [0x00ff00], not rotated and lowered by
    the drivetrain's [yOffset]. *)
Theorem robot_construction guid spec s :
  match Drivetrain_new spec s with
  | (s', Ok d) =>
      exists r mesh,
        SimRobot.new guid spec s = (s', Ok r) /\
        SimRobot._drivetrain r = d /\
        SimObject._children (SimRobot.base r) = wheelObjects d /\
        SimObject._body (SimRobot.base r) = None /\
        SimObject._mesh (SimRobot.base r) = Some mesh /\
        THREE.geometry mesh =
          THREE.BoxGeometry (IRobotSpec.x (IRobotSpec.dimensions spec))
            (IRobotSpec.y (IRobotSpec.dimensions spec))
            (IRobotSpec.z (IRobotSpec.dimensions spec)) /\
        THREE.color (THREE.material mesh) =
          default ROBOT_DEFAULT_COLOR (IRobotSpec.baseColor spec) /\
        THREE.position mesh = THREE.Vector3.mk 0 (- yOffset d) 0 /\
        THREE.rotation mesh = THREE.Euler.zero
  | (s', Throw e) => SimRobot.new guid spec s = (s', Throw e)
  end.
Proof.
  destruct (Drivetrain_new spec s) as [s' [d|e]] eqn:H.
  - exact (new_after_drivetrain guid spec s s' d H).
  - unfold SimRobot.new, bind. rewrite H. reflexivity.
Qed.

(** The drivetrain and the children never touch the robot's base object,
    its specs apart from the drivetrain's own state. *)
Lemma updateCollaborators_robot ms (st : SimRobot.St) :
  let r' := snd (fst (SimRobot.updateCollaborators ms st)) in
  SimRobot.base r' = SimRobot.base (snd st) /\
  SimRobot._bodySpecs r' = SimRobot._bodySpecs (snd st) /\
  SimRobot._fixtureSpecs r' = SimRobot._fixtureSpecs (snd st).
Proof.
  unfold SimRobot.updateCollaborators, bind, SimRobot.onDrivetrain, get.
  destruct (Drivetrain_update _) as [[s' d'] [[]|e]]; simpl;
    [|repeat split; reflexivity].
  apply (forEach_preserves
           (fun st' : SimRobot.St =>
              SimRobot.base (snd st') = SimRobot.base (snd st) /\
              SimRobot._bodySpecs (snd st') = SimRobot._bodySpecs (snd st) /\
              SimRobot._fixtureSpecs (snd st') = SimRobot._fixtureSpecs (snd st))).
  - intros child st' H. unfold SimRobot.onSim.
    destruct (child_update ms child (fst st')) as [s'' o]; simpl. exact H.
  - repeat split; reflexivity.
Qed.

(** What a call of [update] that returns has done. *)
Lemma update_Ok ms (st st1 : SimRobot.St) :
  SimRobot.update ms st = (st1, Ok tt) ->
  exists st0 body mesh,
    SimRobot.updateCollaborators ms st = (st0, Ok tt) /\
    SimObject.body (world (fst st0)) (SimRobot.base (snd st0)) = Some body /\
    SimObject._mesh (SimRobot.base (snd st0)) = Some mesh /\
    st1 = (fst st0,
           SimRobot.set_base
             (SimObject.set_mesh (Some (followPose body mesh)) (SimRobot.base (snd st0)))
             (snd st0)).
Proof.
  intros H. unfold SimRobot.update, bind in H.
  destruct (SimRobot.updateCollaborators ms st) as [st0 [[]|e]] eqn:Hc; [|discriminate].
  destruct (updateMesh_Ok _ _ H) as (body & mesh & Hb & Hm).
  rewrite (updateMesh_follows _ _ _ Hb Hm) in H. injection H as <-.
  exists st0, body, mesh. repeat split; assumption.
Qed.

(** X9. On a robot whose body is not set [update] never returns: it
    throws, after the drivetrain and the children have been updated, and
    leaves the robot's mesh as it was.  When the drivetrain and the
    children return, the exception is the [TypeError] of [this._body] and
    the store is as they left it. *)
Theorem robot_update_without_body ms (st : SimRobot.St) :
  SimObject._body (SimRobot.base (snd st)) = None ->
  exists st' e,
    SimRobot.update ms st = (st', Throw e) /\
    SimRobot.base (snd st') = SimRobot.base (snd st) /\
    (forall st0, SimRobot.updateCollaborators ms st = (st0, Ok tt) ->
       st' = st0 /\ e = TypeError "this._body").
Proof.
  intros Hnone. pose proof (updateCollaborators_robot ms st) as (Hbase & _).
  unfold SimRobot.update, bind.
  destruct (SimRobot.updateCollaborators ms st) as [st0 [[]|e]]; simpl in Hbase.
  - unfold SimRobot.updateMesh, bind, get, deref, throw, SimObject.body.
    rewrite Hbase, Hnone. simpl.
    do 2 eexists. split; [reflexivity|]. split; [exact Hbase|].
    intros ? [= <-]. split; reflexivity.
  - do 2 eexists. split; [reflexivity|]. split; [exact Hbase|].
    intros ? [=].
Qed.

(** X10. A call of [update] that returns changes, of the robot, only the
    drivetrain's own state and three numbers of the mesh: [x] and [z] of
    its position become the world centre of the body, the yaw becomes the
    opposite of the body's angle, both as the drivetrain and the children
    left them.  Geometry, material, height and the other two angles, the
    children, the body reference and the two specs stay. *)
Theorem robot_update_changes_only_pose ms (st st1 : SimRobot.St) :
  SimRobot.update ms st = (st1, Ok tt) ->
  exists body mesh,
    SimObject._mesh (SimRobot.base (snd st)) = Some mesh /\
    SimObject.body (world (fst st1)) (SimRobot.base (snd st)) = Some body /\
    SimRobot.base (snd st1) =
      SimObject.set_mesh
        (Some (THREE.mkMesh (THREE.geometry mesh) (THREE.material mesh)
                 (THREE.Vector3.mk (planck.Vec2.x (planck.getWorldCenter body))
                    (THREE.Vector3.y (THREE.position mesh))
                    (planck.Vec2.y (planck.getWorldCenter body)))
                 (THREE.Euler.mk (THREE.Euler.x (THREE.rotation mesh))
                    (- planck.getAngle body)
                    (THREE.Euler.z (THREE.rotation mesh)))))
        (SimRobot.base (snd st)) /\
    SimRobot.getBodySpecs (snd st1) = SimRobot.getBodySpecs (snd st) /\
    SimRobot.getFixtureDef (snd st1) = SimRobot.getFixtureDef (snd st).
Proof.
  intros H. destruct (update_Ok _ _ _ H) as (st0 & body & mesh & Hc & Hb & Hm & ->).
  pose proof (updateCollaborators_robot ms st) as (Hbase & Hbs & Hfs).
  rewrite Hc in Hbase, Hbs, Hfs. simpl in Hbase, Hbs, Hfs.
  rewrite Hbase in Hb, Hm.
  exists body, mesh. split; [exact Hm|]. split; [exact Hb|].
  simpl. rewrite Hbase. repeat split; assumption.
Qed.

(** X11. A robot fresh from its constructor, given its body, keeps
    through every [update] that returns the height the constructor lowered
    it to: the mesh is at the body's world centre, [yOffset] below the
    ground plane, turned only about the vertical. *)
Theorem constructed_robot_keeps_height guid spec s s' r b ms (st st1 : SimRobot.St) :
  SimRobot.new guid spec s = (s', Ok r) ->
  snd st = SimRobot.set_base (SimObject.setBody b (SimRobot.base r)) r ->
  SimRobot.update ms st = (st1, Ok tt) ->
  exists body,
    planck.bodies (world (fst st1)) !! b = Some body /\
    visualTransform (SimRobot.base (snd st1)) =
      Some (THREE.Vector3.mk (planck.Vec2.x (planck.getWorldCenter body))
              (- yOffset (SimRobot._drivetrain r))
              (planck.Vec2.y (planck.getWorldCenter body)),
            THREE.Euler.mk 0 (- planck.getAngle body) 0).
Proof.
  intros Hnew Hst Hup.
  assert (Hd : exists d, Drivetrain_new spec s = (s', Ok d)).
  { unfold SimRobot.new, bind in Hnew.
    destruct (Drivetrain_new spec s) as [s0 [d|e]]; [|discriminate].
    match type of Hnew with
    | context [fold_left ?f ?ws ?o] =>
        destruct (fold_addChild ws o) as (Hm & _)
    end.
    simpl in Hm. rewrite Hm in Hnew. simpl in Hnew. injection Hnew as -> _. eauto. }
  destruct Hd as [d Hd].
  destruct (new_after_drivetrain guid spec s s' d Hd)
    as (r0 & mesh & Hnew0 & Hdr & _ & _ & Hmesh & _ & _ & Hpos & Hrot).
  rewrite Hnew in Hnew0. injection Hnew0 as <-.
  destruct (update_Ok _ _ _ Hup) as (st0 & body & mesh0 & Hc & Hb & Hm & ->).
  pose proof (updateCollaborators_robot ms st) as (Hbase & _).
  rewrite Hc in Hbase. simpl in Hbase.
  rewrite Hbase, Hst in Hb, Hm. simpl in Hb, Hm.
  rewrite Hmesh in Hm. injection Hm as <-.
  exists body. split; [exact Hb|].
  unfold visualTransform, followPose; simpl. rewrite Hpos, Hrot, Hdr. reflexivity.
Qed.

(** A wheel object without a body stops the linking at
    [wheel.body.getWorldCenter()]. *)
Lemma linkWheel_no_body (s : Sim Wheel) r js wheel wheelObj :
  objects s !! wheel = Some wheelObj ->
  wheel_body wheelObj = None ->
  SimRobot.linkWheel wheel (withJoints js s, r) =
  ((withJoints js s, r), Throw (TypeError "wheel.body")).
Proof.
  intros Ho Hb. unfold SimRobot.linkWheel, bind, get, deref, throw; simpl.
  rewrite Ho; simpl. rewrite Hb; simpl. reflexivity.
Qed.

(** A ready wheel on a robot without a body stops the linking inside the
    joint's constructor, before the world is touched. *)
Lemma linkWheel_no_chassis (s : Sim Wheel) r wheel b body :
  SimObject._body (SimRobot.base r) = None ->
  wheelReady s wheel b body ->
  SimRobot.linkWheel wheel (s, r) = ((s, r), Throw (TypeError "this._body")).
Proof.
  intros Hc (wheelObj & Ho & Hb & Hbody).
  unfold SimRobot.linkWheel, bind, get, deref, throw; simpl.
  rewrite Ho; simpl. rewrite Hb; simpl. rewrite Hbody; simpl. rewrite Hc; simpl.
  reflexivity.
Qed.

(** X12. The linking is not undone when it fails half way.  When the
    wheels before some wheel are ready and that wheel has no body,
    [configureFixtureLinks] throws the [TypeError] of [wheel.body], and the
    joints of the wheels before it, one each, are in the world; the wheels
    after it get none. *)
Theorem configureFixtureLinks_stops_at_bodiless_wheel
    (s : Sim Wheel) r chassis ready bad rest wheelObj :
  SimObject._body (SimRobot.base r) = Some chassis ->
  wheelObjects (SimRobot._drivetrain r) = ready ++ bad :: rest ->
  Forall (fun wheel => exists b body, wheelReady s wheel b body) ready ->
  objects s !! bad = Some wheelObj ->
  wheel_body wheelObj = None ->
  exists created,
    SimRobot.configureFixtureLinks (s, r) =
      ((withJoints (created ++ planck.joints (world s)) s, r),
       Throw (TypeError "wheel.body")) /\
    length created = length ready /\
    Forall2 (fun wheel j => exists b body,
               wheelReady s wheel b body /\ isWheelLink chassis b body j)
      (rev ready) created.
Proof.
  intros Hc Hws Hready Ho Hb.
  destruct (forEach_linkWheel s r chassis ready (planck.joints (world s)) Hc Hready)
    as (created & Hrun & Hlinks).
  rewrite withJoints_same in Hrun.
  exists created. split; [|split; [|exact Hlinks]].
  - unfold SimRobot.configureFixtureLinks, bind, get; simpl.
    rewrite Hws, forEach_app, Hrun. simpl. unfold bind at 1.
    rewrite (linkWheel_no_body s r _ bad wheelObj Ho Hb). reflexivity.
  - apply Forall2_length in Hlinks. rewrite length_rev in Hlinks. now symmetry.
Qed.

(** X13. On a robot without a body no joint is ever created: with no
    wheel objects [configureFixtureLinks] returns at once, and with a
    first wheel that is ready it throws the [TypeError] of [this._body];
    either way store and robot are untouched. *)
Theorem configureFixtureLinks_without_chassis_body (s : Sim Wheel) r :
  SimObject._body (SimRobot.base r) = None ->
  match wheelObjects (SimRobot._drivetrain r) with
  | [] => SimRobot.configureFixtureLinks (s, r) = ((s, r), Ok tt)
  | wheel :: _ =>
      (exists b body, wheelReady s wheel b body) ->
      SimRobot.configureFixtureLinks (s, r) = ((s, r), Throw (TypeError "this._body"))
  end.
Proof.
  intros Hc. unfold SimRobot.configureFixtureLinks, bind, get; simpl.
  destruct (wheelObjects (SimRobot._drivetrain r)) as [|wheel rest]; [reflexivity|].
  intros (b & body & Hw). simpl. unfold bind.
  rewrite (linkWheel_no_chassis s r wheel b body Hc Hw). reflexivity.
Qed.

(** The joints the linking creates depend on the wheels and their
    bodies, not on the joints already there. *)
Lemma forEach_linkWheel_created (s : Sim Wheel) r chassis wheels :
  SimObject._body (SimRobot.base r) = Some chassis ->
  Forall (fun wheel => exists b body, wheelReady s wheel b body) wheels ->
  exists created,
    length created = length wheels /\
    forall js,
      forEach wheels SimRobot.linkWheel (withJoints js s, r) =
        ((withJoints (created ++ js) s, r), Ok tt).
Proof.
  intros Hc. induction wheels as [|wheel wheels IH]; intros Hready.
  - exists []. split; [reflexivity|]. intros js. reflexivity.
  - inversion Hready as [|? ? (b & body & Hw) Hrest]; subst.
    destruct (IH Hrest) as (created & Hlen & Hrun).
    exists (created ++ [planck.mkJoint (planck.mkJointDef true 0 0) chassis b
                          (planck.getWorldCenter body) (planck.Vec2.mk 1 0)]).
    split; [rewrite length_app; simpl; lia|].
    intros js. simpl. unfold bind at 1.
    rewrite (linkWheel_ready s r js chassis wheel b body Hc Hw).
    rewrite Hrun, <- app_assoc. reflexivity.
Qed.

(** X14. [configureFixtureLinks] does not look at the joints the world
    already has: called a second time it links every wheel again, so the
    world then holds each wheel's joint twice. *)
Theorem configureFixtureLinks_twice_links_twice (s : Sim Wheel) r chassis :
  SimObject._body (SimRobot.base r) = Some chassis ->
  Forall (fun wheel => exists b body, wheelReady s wheel b body)
    (wheelObjects (SimRobot._drivetrain r)) ->
  exists created,
    length created = length (wheelObjects (SimRobot._drivetrain r)) /\
    (SimRobot.configureFixtureLinks ;;; SimRobot.configureFixtureLinks) (s, r) =
      ((withJoints (created ++ created ++ planck.joints (world s)) s, r), Ok tt).
Proof.
  intros Hc Hready.
  destruct (forEach_linkWheel_created s r chassis _ Hc Hready) as (created & Hlen & Hrun).
  exists created. split; [exact Hlen|].
  assert (Hcfg : forall st : SimRobot.St,
             SimRobot.configureFixtureLinks st =
             forEach (wheelObjects (SimRobot._drivetrain (snd st))) SimRobot.linkWheel st)
    by reflexivity.
  pose proof (Hrun (planck.joints (world s))) as H1.
  rewrite withJoints_same in H1.
  unfold bind. rewrite (Hcfg (s, r)). cbn [snd]. rewrite H1.
  rewrite Hcfg. cbn [snd]. exact (Hrun (created ++ planck.joints (world s))).
Qed.

End RobotFurther.

(** ** The further properties at concrete inputs *)

Lemma rectangle_zone_centre_on_body_witness :
  exists z mesh centre,
    makeZone "zone-1" placedRectangleSpec = ([], Ok z) /\
    SimObject._mesh (Zone.base z) = Some mesh /\
    footprintWorldCentre mesh = Some centre /\
    groundPoint centre = planck.position (Zone.getBodySpecs z) /\
    planck.position (Zone.getBodySpecs z) = planck.Vec2.mk 3 4.
Proof.
  destruct (rectangle_zone_centre_on_body "zone-1" placedRectangleSpec
              (IZoneSpec.mkRectangle 4 2) eq_refl)
    as (z & mesh & centre & Hz & Hm & Hc & Hg).
  exists z, mesh, centre. repeat (split; [assumption|]).
  destruct (makeZone_Ok _ _ _ _ Hz) as (fs & m & ->). reflexivity.
Defined.

Lemma polygon_zone_vertices_on_fixture_witness :
  exists z mesh shapePoints fixturePoints,
    makeZone "zone-1" polygonSpec = ([], Ok z) /\
    SimObject._mesh (Zone.base z) = Some mesh /\
    THREE.geometry mesh = THREE.ShapeBufferGeometry (THREE.ShapeOfPoints shapePoints) /\
    planck.shape (Zone.getFixtureDef z) = Some (planck.Polygon fixturePoints) /\
    Forall2 (fun sv fv => shownAt mesh sv = bodyPoint (Zone.getBodySpecs z) fv)
      shapePoints fixturePoints.
Proof.
  exact (polygon_zone_vertices_on_fixture "zone-1" polygonSpec
           (IZoneSpec.mkPolygon triangle) polygonSpec_valid eq_refl).
Defined.

Lemma fresh_zone_update_throws_witness :
  exists z,
    makeZone "zone-1" rectangleSpec = ([], Ok z) /\
    SimObject._body (Zone.base z) = None /\
    Zone.update 16 z exampleWorld = (exampleWorld, Throw (TypeError "this._body")).
Proof.
  eexists. split; [reflexivity|].
  exact (fresh_zone_update_throws "zone-1" rectangleSpec [] _ 16 exampleWorld eq_refl).
Defined.

Lemma zone_update_at_rest_witness :
  exists z,
    makeZone "zone-1" placedRectangleSpec = ([], Ok z) /\
    Zone.update 16 (Zone_setBody 0%nat z) restingWorld =
      (restingWorld, Ok (Zone_setBody 0%nat z)).
Proof.
  eexists. split; [reflexivity|].
  exact (zone_update_at_rest "zone-1" placedRectangleSpec [] _ 16 restingWorld 0%nat
           (planck.mkBody (planck.Vec2.mk 3 4) 0 (planck.Vec2.mk 0 0) (planck.Vec2.mk 0 0))
           eq_refl eq_refl eq_refl).
Defined.

Lemma zone_life_keeps_footprint_witness :
  exists z,
    makeZone "zone-1" rectangleSpec = ([], Ok z) /\
    exists z',
      zoneRun exampleZoneLife z = Ok z' /\
      flatOnGround z' /\
      Zone.getBodySpecs z' = Zone.getBodySpecs z.
Proof.
  eexists. split; [reflexivity|]. eexists. split; [reflexivity|].
  match goal with
  | |- flatOnGround ?z' /\ _ =>
      destruct (zone_life_keeps_footprint "zone-1" rectangleSpec [] _ exampleZoneLife z'
                  eq_refl eq_refl) as [Hflat (Hb & _)]
  end.
  split; assumption.
Defined.

Lemma rectangle_zone_tracks_body_witness :
  exists z,
    makeZone "zone-1" placedRectangleSpec = ([], Ok z) /\
    exists z1 mesh centre,
      Zone.update 16 (Zone_setBody 0%nat z) exampleWorld = (exampleWorld, Ok z1) /\
      SimObject._mesh (Zone.base z1) = Some mesh /\
      footprintWorldCentre mesh = Some centre /\
      groundPoint centre = planck.Vec2.mk 5 7.
Proof.
  eexists. split; [reflexivity|].
  exact (rectangle_zone_tracks_body "zone-1" placedRectangleSpec
           (IZoneSpec.mkRectangle 4 2) [] _ 16 exampleWorld 0%nat
           (planck.mkBody (planck.Vec2.mk 5 7) 0.25 (planck.Vec2.mk 0 0) (planck.Vec2.mk 0 0))
           eq_refl eq_refl eq_refl).
Defined.

Lemma ellipse_zone_stays_offset_witness :
  exists z,
    makeZone "zone-1" ellipseSpec = ([], Ok z) /\
    exists z1 mesh centre,
      Zone.update 16 (Zone_setBody 0%nat z) exampleWorld = (exampleWorld, Ok z1) /\
      SimObject._mesh (Zone.base z1) = Some mesh /\
      footprintWorldCentre mesh = Some centre /\
      groundPoint centre = planck.Vec2.mk (5 + 1) (7 + 0).
Proof.
  eexists. split; [reflexivity|].
  exact (ellipse_zone_stays_offset "zone-1" ellipseSpec
           (IZoneSpec.mkEllipse 1 1) [] _ 16 exampleWorld 0%nat
           (planck.mkBody (planck.Vec2.mk 5 7) 0.25 (planck.Vec2.mk 0 0) (planck.Vec2.mk 0 0))
           eq_refl eq_refl eq_refl eq_refl).
Defined.

Lemma robot_update_without_body_witness :
  exists st,
    exampleConstructed = Some st /\
    SimObject._body (SimRobot.base (snd st)) = None /\
    exists st' e,
      SimRobot.update (C := TwoWheelDrive.collaborators) 16 st = (st', Throw e) /\
      SimRobot.base (snd st') = SimRobot.base (snd st).
Proof.
  eexists. split; [reflexivity|]. split; [reflexivity|].
  match goal with
  | |- exists st' e, SimRobot.update _ ?st = _ /\ _ =>
      destruct (robot_update_without_body (C := TwoWheelDrive.collaborators) 16 st eq_refl)
        as (st' & e & Hup & Hbase & _)
  end.
  exists st', e. split; assumption.
Defined.

Lemma robot_update_changes_only_pose_witness :
  exists st,
    exampleScene = Some st /\
    exists st1,
      SimRobot.update (C := TwoWheelDrive.collaborators) 16 st = (st1, Ok tt) /\
      SimRobot.getBodySpecs (snd st1) = SimRobot.getBodySpecs (snd st) /\
      SimRobot.getFixtureDef (snd st1) = SimRobot.getFixtureDef (snd st) /\
      SimObject._children (SimRobot.base (snd st1)) =
        SimObject._children (SimRobot.base (snd st)).
Proof.
  eexists. split; [reflexivity|]. unfold attachBodies.
  match goal with
  | |- exists st1, SimRobot.update _ ?st = _ /\ _ => set (st0 := st)
  end.
  assert (H1 : exists st1,
             SimRobot.update (C := TwoWheelDrive.collaborators) 16 st0 = (st1, Ok tt)).
  { eexists. lazy. reflexivity. }
  destruct H1 as (st1 & H1).
  exists st1. split; [exact H1|].
  destruct (robot_update_changes_only_pose (C := TwoWheelDrive.collaborators) 16 st0 st1 H1)
    as (body & mesh & _ & _ & Hbase & Hbs & Hfs).
  split; [exact Hbs|]. split; [exact Hfs|]. rewrite Hbase. reflexivity.
Defined.

Lemma constructed_robot_keeps_height_witness :
  exists st,
    exampleConstructed = Some st /\
    exists st1 y yaw,
      SimRobot.update (C := TwoWheelDrive.collaborators) 16 (attachBodies st) =
        (st1, Ok tt) /\
      visualTransform (SimRobot.base (snd st1)) =
        Some (THREE.Vector3.mk 5 y 7, THREE.Euler.mk 0 yaw 0) /\
      y = -1 /\ yaw = -0.25.
Proof.
  eexists. split; [reflexivity|].
  match goal with
  | |- exists st1 y yaw, SimRobot.update _ (attachBodies (?s', ?r)) = _ /\ _ =>
      set (s1 := s'); set (r1 := r)
  end.
  assert (H1 : exists st1,
             SimRobot.update (C := TwoWheelDrive.collaborators) 16 (attachBodies (s1, r1)) =
               (st1, Ok tt) /\
             planck.bodies (world (fst st1)) !! 0%nat =
               Some (planck.mkBody (planck.Vec2.mk 5 7) 0.25
                       (planck.Vec2.mk 0 0) (planck.Vec2.mk 0 0))).
  { eexists. split; [lazy; reflexivity|]. reflexivity. }
  destruct H1 as (st1 & H1 & Hbody).
  destruct (constructed_robot_keeps_height (C := TwoWheelDrive.collaborators)
              "robot-1" exampleRobotSpec emptySim s1 r1 0%nat 16
              (attachBodies (s1, r1)) st1 eq_refl eq_refl H1)
    as (body & Hb & Hvt).
  rewrite Hbody in Hb. injection Hb as <-.
  exists st1. do 2 eexists. split; [exact H1|]. split; [exact Hvt|].
  unfold r1; cbn. split; lra.
Defined.

Lemma configureFixtureLinks_stops_at_bodiless_wheel_witness :
  exists st,
    exampleConstructed = Some st /\
    exists st',
      SimRobot.configureFixtureLinks (C := TwoWheelDrive.collaborators) (attachSome 1 st) =
        (st', Throw (TypeError "wheel.body")) /\
      length (planck.joints (world (fst st'))) = 1%nat.
Proof.
  eexists. split; [reflexivity|]. unfold attachSome.
  match goal with
  | |- exists _, SimRobot.configureFixtureLinks (?s, ?r) = _ /\ _ =>
      destruct (configureFixtureLinks_stops_at_bodiless_wheel
                  (C := TwoWheelDrive.collaborators) s r 0%nat [0%nat] 1%nat []
                  (TwoWheelDrive.newWheel "wheel-1" 1) eq_refl eq_refl)
        as (created & Hrun & Hlen & _)
  end.
  - repeat constructor. exists 1%nat. eexists. eexists. repeat split; reflexivity.
  - reflexivity.
  - reflexivity.
  - eexists. split; [exact Hrun|].
    cbn [fst world withJoints set_world planck.joints]. rewrite app_nil_r. exact Hlen.
Defined.

Lemma configureFixtureLinks_without_chassis_body_witness :
  exists st,
    exampleConstructed = Some st /\
    SimRobot.configureFixtureLinks (C := TwoWheelDrive.collaborators) (attachWheelsOnly st) =
      (attachWheelsOnly st, Throw (TypeError "this._body")).
Proof.
  eexists. split; [reflexivity|]. unfold attachWheelsOnly, attachBodies. cbn [fst snd].
  match goal with
  | |- SimRobot.configureFixtureLinks (?s, ?r) = _ =>
      apply (configureFixtureLinks_without_chassis_body
               (C := TwoWheelDrive.collaborators) s r eq_refl)
  end.
  exists 1%nat. eexists. eexists. repeat split; reflexivity.
Defined.

Lemma configureFixtureLinks_twice_links_twice_witness :
  exists st,
    exampleScene = Some st /\
    exists st',
      (SimRobot.configureFixtureLinks (C := TwoWheelDrive.collaborators) ;;;
       SimRobot.configureFixtureLinks (C := TwoWheelDrive.collaborators)) st =
        (st', Ok tt) /\
      length (planck.joints (world (fst st'))) = 4%nat.
Proof.
  eexists. split; [reflexivity|]. unfold attachBodies.
  match goal with
  | |- exists _, _ (?s, ?r) = _ /\ _ =>
      destruct (configureFixtureLinks_twice_links_twice
                  (C := TwoWheelDrive.collaborators) s r 0%nat eq_refl)
        as (created & Hlen & Hrun)
  end.
  - repeat constructor.
    + exists 1%nat. eexists. eexists. repeat split; reflexivity.
    + exists 2%nat. eexists. eexists. repeat split; reflexivity.
  - eexists. split; [exact Hrun|].
    cbn [fst world withJoints set_world planck.joints].
    rewrite !length_app, Hlen. reflexivity.
Defined.

Lemma makeZone_outcomes_witness :
  makeZone "zone-1" emptyPolygonSpec = ([], Throw (TypeError "points[0]")) /\
  emptyPolygonFirst emptyPolygonSpec.
Proof.
  split; [reflexivity|].
  pose proof (makeZone_outcomes "zone-1" emptyPolygonSpec) as H.
  change (makeZone "zone-1" emptyPolygonSpec)
    with (@nil string, @Throw Zone.t (TypeError "points[0]")) in H.
  destruct H as [(Hc & _)|(_ & _ & H)]; [discriminate Hc|exact H].
Defined.
